(** * fornax: the Vulkan specification reference printer

    A shallow embedding of [gen/vk_spec_reference_parser.py] and the
    properties of the text it writes.

    The script walks the object model returned by [get_vulkan_object()] and
    prints one record per entity on standard output.  Standard output is
    modelled as the list of the texts of the [print] calls, in order, each
    without its final newline; [text_of] gives the bytes written.  The
    module-level name [handle], which [command_to_toml] reads, is the only
    piece of interpreter state the output depends on; it is threaded through
    a small state, output and exception monad. *)

From Stdlib Require Import String Ascii List ZArith Bool Lia DecimalString.
Import ListNotations.
Open Scope string_scope.
Set Warnings "-register-all".

(** ** Python values as the script observes them

    The script only ever tests an attribute for truth and prints it, so a
    dynamically typed attribute is a value with a truth value and a [str()]. *)

Inductive PyVal : Type :=
| PyNone
| PyBool (b : bool)
| PyInt (z : Z)
| PyStr (s : string).

(** [bool(v)] *)
Definition truthy (v : PyVal) : bool :=
  match v with
  | PyNone => false
  | PyBool b => b
  | PyInt z => negb (Z.eqb z 0)
  | PyStr s => negb (String.eqb s EmptyString)
  end.

(** [str(v)], as [print] and f-strings apply it *)
Definition py_str (v : PyVal) : string :=
  match v with
  | PyNone => "None"
  | PyBool true => "True"
  | PyBool false => "False"
  | PyInt z => NilZero.string_of_int (Z.to_int z)
  | PyStr s => s
  end.

(** The conditional expression [x if x else d], as [print] renders it. *)
Definition value_or (x : PyVal) (d : string) : string :=
  if truthy x then py_str x else d.

(** [sep.join(xs)] *)
Definition join (sep : string) (xs : list string) : string :=
  String.concat sep xs.

(** A [dict] keeps insertion order: an association list. *)
Definition dict (V : Type) : Type := list (string * V).

Definition values {V : Type} (d : dict V) : list V := map snd d.

Definition items {V : Type} (d : dict V) : list (string * V) := d.

(** ** The object model, with the attributes the script reads *)

Module FeatureRequirement.
Record t : Type := mk {
  struct : string;
  field : string;
  depends : PyVal
}.
End FeatureRequirement.

Module Version.
Record t : Type := mk {
  name : string;
  nameApi : string;
  featureRequirement : list FeatureRequirement.t
}.
End Version.

Module Handle.
Inductive t : Type := mk {
  name : string;
  aliases : list string;
  type : string;
  protect : PyVal;
  parent : option t;
  instance : bool;
  device : bool;
  extensions : list string
}.
End Handle.

Module Param.
Record t : Type := mk {
  name : string;
  alias : PyVal;
  type : string;
  fullType : string;
  const : bool;
  pointer : bool;
  optional : bool;
  optionalPointer : bool;
  length : PyVal;
  nullTerminated : bool;
  fixedSizeArray : list string;
  externSync : PyVal;
  externSyncPointer : PyVal
}.
End Param.

Module Command.
Record t : Type := mk {
  name : string;
  alias : PyVal;
  protect : PyVal;
  version : option Version.t;
  primary : bool;
  secondary : bool;
  allowNoQueues : bool;
  tasks : list string;
  queues : list string;
  renderPass : PyVal;
  videoCoding : PyVal;
  returnType : string;
  successCodes : list string;
  errorCodes : list string;
  implicitExternSyncParams : list string;
  params : list Param.t
}.
End Command.

Module Member.
Record t : Type := mk {
  name : string;
  type : string;
  fullType : string;
  limitType : PyVal;
  const : bool;
  pointer : bool;
  fixedSizeArray : list string;
  optional : bool;
  optionalPointer : bool;
  externSync : PyVal;
  bitFieldWidth : PyVal;
  selector : PyVal;
  selection : list string
}.
End Member.

Module Struct.
Record t : Type := mk {
  name : string;
  aliases : list string;
  extensions : list string;
  version : option Version.t;
  protect : PyVal;
  union : bool;
  sType : PyVal;
  allowDuplicate : bool;
  extends : list string;
  extendedBy : list string;
  members : list Member.t
}.
End Struct.

Module EnumField.
Record t : Type := mk {
  name : string;
  aliases : list string;
  negative : bool;
  value : PyVal;
  extensions : list string
}.
End EnumField.

Module Enum.
Record t : Type := mk {
  name : string;
  aliases : list string;
  protect : PyVal;
  bitWidth : PyVal;
  returnedOnly : bool;
  extensions : list string;
  fieldExtensions : list string;
  fields : list EnumField.t
}.
End Enum.

Module Flag.
Record t : Type := mk {
  name : string;
  aliases : list string;
  protect : PyVal;
  value : PyVal;
  multiBit : bool;
  zero : bool;
  extensions : list string
}.
End Flag.

Module Bitmask.
Record t : Type := mk {
  name : string;
  aliases : list string;
  protect : PyVal;
  flagName : string;
  bitWidth : PyVal;
  returnedOnly : bool;
  extensions : list string;
  flagExtensions : list string;
  flags : list Flag.t
}.
End Bitmask.

Module Flags.
Record t : Type := mk {
  name : string;
  aliases : list string;
  bitmaskName : PyVal;
  protect : PyVal;
  baseFlagsType : string;
  bitWidth : PyVal;
  returnedOnly : bool;
  extensions : list string
}.
End Flags.

Module Constant.
Record t : Type := mk {
  name : string;
  type : string;
  value : PyVal
}.
End Constant.

Module SpirvEnables.
Record t : Type := mk {
  version : PyVal;
  extension : PyVal;
  struct : PyVal;
  feature : PyVal;
  requires : PyVal;
  property : PyVal;
  member : PyVal;
  value : PyVal
}.
End SpirvEnables.

Module Spirv.
Record t : Type := mk {
  extension : bool;
  name : string;
  enable : list SpirvEnables.t
}.
End Spirv.

Module Extension.
Record t : Type := mk {
  name : string;
  nameString : string;
  specVersion : string;
  instance : bool;
  device : bool;
  depends : PyVal;
  vendorTag : PyVal;
  platform : PyVal;
  protect : PyVal;
  provisional : bool;
  promotedTo : PyVal;
  deprecatedBy : PyVal;
  obsoletedBy : PyVal;
  specialUse : list string;
  handles : list Handle.t;
  commands : list Command.t;
  structs : list Struct.t;
  enums : list Enum.t;
  bitmasks : list Bitmask.t;
  flags : dict (list Flags.t);
  enumFields : dict (list EnumField.t);
  flagBits : dict (list Flag.t);
  featureRequirement : list FeatureRequirement.t
}.
End Extension.

Module VulkanObject.
Record t : Type := mk {
  extensions : dict Extension.t;
  versions : dict Version.t;
  handles : dict Handle.t;
  commands : dict Command.t;
  structs : dict Struct.t;
  enums : dict Enum.t;
  bitmasks : dict Bitmask.t;
  flags : dict Flags.t;
  constants : dict Constant.t;
  formats : dict PyVal;
  syncStage : list PyVal;
  syncAccess : list PyVal;
  syncPipeline : list PyVal;
  spirv : list Spirv.t;
  platforms : dict string;
  vendorTags : list string;
  videoCodecs : dict PyVal
}.
End VulkanObject.

(** ** Interpreter state, standard output and exceptions *)

(** The module-level names a function of the script reads: only [handle],
    bound by the loop over [vk.handles] and read by [command_to_toml]. *)
Record Globals : Type := mkGlobals {
  g_handle : option Handle.t
}.

Inductive Exn : Type :=
| NameError (name : string).

Inductive Outcome (A : Type) : Type :=
| Returned (a : A) (g : Globals)
| Raised (e : Exn).
Arguments Returned {A} a g.
Arguments Raised {A} e.

Record Run (A : Type) : Type := mkRun {
  stdout : list string;
  outcome : Outcome A
}.
Arguments mkRun {A} stdout outcome.
Arguments stdout {A} r.
Arguments outcome {A} r.

Definition M (A : Type) : Type := Globals -> Run A.

Definition ret {A : Type} (a : A) : M A :=
  fun g => mkRun [] (Returned a g).

Definition bind {A B : Type} (m : M A) (k : A -> M B) : M B :=
  fun g =>
    let r := m g in
    match outcome r with
    | Returned a g' =>
        let r' := k a g' in
        mkRun (stdout r ++ stdout r') (outcome r')
    | Raised e => mkRun (stdout r) (Raised e)
    end.

Declare Scope py_scope.
Delimit Scope py_scope with py.
Notation "x <- m ;; k" := (bind m (fun x => k))
  (at level 61, m at next level, right associativity) : py_scope.
Notation "m ;; k" := (bind m (fun _ => k))
  (at level 61, right associativity) : py_scope.
Open Scope py_scope.

(** [print] with its arguments and [sep]: one line of output. *)
Definition print_sep (sep : string) (args : list string) : M unit :=
  fun g => mkRun [join sep args] (Returned tt g).

Definition print (args : list string) : M unit := print_sep " " args.

(** A [for] statement whose body is [body]. *)
Fixpoint for_each {A : Type} (xs : list A) (body : A -> M unit) : M unit :=
  match xs with
  | [] => ret tt
  | x :: xs' => body x ;; for_each xs' body
  end.

(** Reading and binding the global name [handle]. *)
Definition load_handle : M Handle.t :=
  fun g =>
    match g_handle g with
    | Some h => mkRun [] (Returned h g)
    | None => mkRun [] (Raised (NameError "handle"))
    end.

Definition store_handle (h : Handle.t) : M unit :=
  fun _ => mkRun [] (Returned tt (mkGlobals (Some h))).

(** The bytes written: every [print] ends its line. *)
Definition text_of (lines : list string) : string :=
  String.concat EmptyString
    (map (fun l => l ++ String (ascii_of_nat 10) EmptyString) lines).

(** ** The script's functions *)

(** The body of the loops over [item.featureRequirement] (lines 58-62 and
    71-75 are the same text). *)
Definition feature_requirement_body (fr : FeatureRequirement.t) : M unit :=
  print ["[[feature_requirement]]"] ;;
  print ["struct ="; FeatureRequirement.struct fr] ;;
  print ["field ="; FeatureRequirement.field fr] ;;
  print ["depends ="; value_or (FeatureRequirement.depends fr) "null"].

Definition extension_flags_body (nf : string * list Flags.t) : M unit :=
  let '(n, f) := nf in
  print ["[[flags]]"] ;;
  print ["flag ="; n] ;;
  let names := map Flags.name f in
  print_sep EmptyString ["flags = ["; join "," names; "]"].

Definition extension_enum_fields_body (nf : string * list EnumField.t)
  : M unit :=
  let '(n, f) := nf in
  print ["[[enum_fields]]"] ;;
  print ["enum ="; n] ;;
  let names := map EnumField.name f in
  print_sep EmptyString ["fields = ["; join "," names; "]"].

Definition extension_flag_bits_body (nf : string * list Flag.t) : M unit :=
  let '(n, f) := nf in
  print ["[[flag_bits]]"] ;;
  print ["flag ="; n] ;;
  let names := map Flag.name f in
  print_sep EmptyString ["bits = ["; join "," names; "]"].

Definition extension_to_toml (item : Extension.t) : M unit :=
  print ["[[extension]]"] ;;
  print ["name ="; Extension.name item] ;;
  print ["name_string ="; Extension.nameString item] ;;
  print ["spec_version_string ="; Extension.specVersion item] ;;
  print ["instance ="; if Extension.instance item then "true" else "false"] ;;
  print ["device ="; if Extension.device item then "true" else "false"] ;;
  print ["depends ="; value_or (Extension.depends item) "null"] ;;
  print ["vendor_tag ="; value_or (Extension.vendorTag item) "null"] ;;
  print ["platform ="; value_or (Extension.platform item) "null"] ;;
  print ["protect ="; value_or (Extension.protect item) "null"] ;;
  print ["provisional =";
         if Extension.provisional item then "true" else "false"] ;;
  print ["promoted_to ="; value_or (Extension.promotedTo item) "null"] ;;
  print ["deprecated_by ="; value_or (Extension.deprecatedBy item) "null"] ;;
  print ["obsoleted_by ="; value_or (Extension.obsoletedBy item) "null"] ;;
  print ["special_use ="; join "," (Extension.specialUse item)] ;;
  let handles_names := map Handle.name (Extension.handles item) in
  print_sep EmptyString ["handles = ["; join "," handles_names; "]"] ;;
  let commands_names := map Command.name (Extension.commands item) in
  print_sep EmptyString ["commands = ["; join "," commands_names; "]"] ;;
  let structs_names := map Struct.name (Extension.structs item) in
  print_sep EmptyString ["structs = ["; join "," structs_names; "]"] ;;
  let enums_names := map Enum.name (Extension.enums item) in
  print_sep EmptyString ["enums = ["; join "," enums_names; "]"] ;;
  let bitmasks_names := map Bitmask.name (Extension.bitmasks item) in
  print_sep EmptyString ["bitmasks = ["; join "," bitmasks_names; "]"] ;;
  for_each (items (Extension.flags item)) extension_flags_body ;;
  for_each (items (Extension.enumFields item)) extension_enum_fields_body ;;
  for_each (items (Extension.flagBits item)) extension_flag_bits_body ;;
  for_each (Extension.featureRequirement item) feature_requirement_body ;;
  print [].

Definition version_to_toml (item : Version.t) : M unit :=
  print ["[[item]]"] ;;
  print ["name ="; Version.name item] ;;
  print ["api ="; Version.nameApi item] ;;
  print ["api ="; Version.nameApi item] ;;
  for_each (Version.featureRequirement item) feature_requirement_body ;;
  print [].

Definition handle_to_toml (item : Handle.t) : M unit :=
  print ["[[item]]"] ;;
  print ["name ="; Handle.name item] ;;
  print_sep EmptyString ["aliases = ["; join "," (Handle.aliases item); "]"] ;;
  print ["type ="; Handle.type item] ;;
  print ["protect ="; value_or (Handle.protect item) "null"] ;;
  print ["parent =";
         match Handle.parent item with
         | Some p => Handle.name p
         | None => "null"
         end] ;;
  print ["instance ="; if Handle.instance item then "true" else "false"] ;;
  print ["devices ="; if Handle.device item then "true" else "false"] ;;
  print_sep EmptyString
    ["extensions = ["; join "," (Handle.extensions item); "]"] ;;
  print [].

Definition command_param_body (param : Param.t) : M unit :=
  print ["[[parameter]]"] ;;
  print ["name ="; Param.name param] ;;
  print ["alias ="; py_str (Param.alias param)] ;;
  print ["type ="; Param.type param] ;;
  print ["full_type ="; Param.fullType param] ;;
  print ["const ="; if Param.const param then "true" else "false"] ;;
  print ["pointer ="; if Param.pointer param then "true" else "false"] ;;
  print ["optional ="; if Param.optional param then "true" else "false"] ;;
  print ["optional_pointer =";
         if Param.optionalPointer param then "true" else "false"] ;;
  print ["length ="; value_or (Param.length param) "null"] ;;
  print ["null_terminated =";
         if Param.nullTerminated param then "true" else "false"] ;;
  print_sep EmptyString
    ["array_size = ["; join "," (Param.fixedSizeArray param); "]"] ;;
  print ["extern_sync ="; py_str (Param.externSync param)] ;;
  print ["extern_sync_pointer =";
         value_or (Param.externSyncPointer param) "null"].

(** [handle] is not a parameter and is not assigned in the function: every
    occurrence reads the module-level name. *)
Definition command_to_toml (item : Command.t) : M unit :=
  print ["[[item]]"] ;;
  print ["name ="; Command.name item] ;;
  print ["alias ="; value_or (Command.alias item) "null"] ;;
  print ["protect ="; value_or (Command.protect item) "null"] ;;
  print ["version =";
         match Command.version item with
         | Some v => Version.name v
         | None => "null"
         end] ;;
  handle <- load_handle ;;
  print ["instance ="; if Handle.instance handle then "true" else "false"] ;;
  handle <- load_handle ;;
  print ["devices ="; if Handle.device handle then "true" else "false"] ;;
  print ["primary ="; if Command.primary item then "true" else "false"] ;;
  print ["secondary ="; if Command.secondary item then "true" else "false"] ;;
  print ["allow_no_queues =";
         if Command.allowNoQueues item then "true" else "false"] ;;
  handle <- load_handle ;;
  print_sep EmptyString
    ["extensions = ["; join "," (Handle.extensions handle); "]"] ;;
  print_sep EmptyString ["tasks = ["; join "," (Command.tasks item); "]"] ;;
  print_sep EmptyString ["queues = ["; join "," (Command.queues item); "]"] ;;
  print ["render_pass ="; py_str (Command.renderPass item)] ;;
  print ["video_conding ="; py_str (Command.videoCoding item)] ;;
  print ["return_type ="; Command.returnType item] ;;
  print_sep EmptyString
    ["success_codes = ["; join "," (Command.successCodes item); "]"] ;;
  print_sep EmptyString
    ["error_codes = ["; join "," (Command.errorCodes item); "]"] ;;
  print_sep EmptyString
    ["implicit_extern_sync_params = [";
     join "," (Command.implicitExternSyncParams item); "]"] ;;
  for_each (Command.params item) command_param_body ;;
  print [].

Definition struct_member_body (member : Member.t) : M unit :=
  print ["[[member]]"] ;;
  print ["name = " ++ Member.name member] ;;
  print ["type = " ++ Member.type member] ;;
  print ["full_type = " ++ Member.fullType member] ;;
  print ["limit_type ="; value_or (Member.limitType member) "null"] ;;
  print ["const ="; if Member.const member then "true" else "false"] ;;
  print ["pointer ="; if Member.pointer member then "true" else "false"] ;;
  print_sep EmptyString
    ["array_size = ["; join "," (Member.fixedSizeArray member); "]"] ;;
  print ["optional ="; if Member.optional member then "true" else "false"] ;;
  print ["optional_ptr =";
         if Member.optionalPointer member then "true" else "false"] ;;
  print ["extern_sync ="; py_str (Member.externSync member)] ;;
  print ["bits ="; value_or (Member.bitFieldWidth member) "null"] ;;
  print ["selector ="; value_or (Member.selector member) "null"] ;;
  print_sep EmptyString
    ["selection = ["; join "," (Member.selection member); "]"].

Definition struct_to_toml (item : Struct.t) : M unit :=
  print ["[[item]]"] ;;
  print ["name = " ++ Struct.name item] ;;
  print_sep EmptyString ["aliases = ["; join "," (Struct.aliases item); "]"] ;;
  print_sep EmptyString
    ["extensions = ["; join "," (Struct.extensions item); "]"] ;;
  print ["version =";
         match Struct.version item with
         | Some v => Version.name v
         | None => "VK_VERSION_1_0"
         end] ;;
  print ["protect ="; value_or (Struct.protect item) "null"] ;;
  print ["union ="; if Struct.union item then "true" else "false"] ;;
  print ["sType ="; value_or (Struct.sType item) "null"] ;;
  print ["allow_duplicate =";
         if Struct.allowDuplicate item then "true" else "false"] ;;
  print_sep EmptyString ["extends = ["; join "," (Struct.extends item); "]"] ;;
  print_sep EmptyString
    ["extended_by = ["; join "," (Struct.extendedBy item); "]"] ;;
  for_each (Struct.members item) struct_member_body ;;
  print [].

Definition enum_field_body (m : EnumField.t) : M unit :=
  print ["[[field]]"] ;;
  print ["name ="; EnumField.name m] ;;
  print_sep EmptyString
    ["aliases = ["; join "," (EnumField.aliases m); "]"] ;;
  print ["negative ="; if EnumField.negative m then "true" else "false"] ;;
  print ["value ="; py_str (EnumField.value m)] ;;
  print_sep EmptyString
    ["extensions = ["; join "," (EnumField.extensions m); "]"].

Definition enum_to_toml (item : Enum.t) : M unit :=
  print ["[[enum]]"] ;;
  print ["name ="; Enum.name item] ;;
  print_sep EmptyString ["aliases = ["; join "," (Enum.aliases item); "]"] ;;
  print ["protect ="; value_or (Enum.protect item) "null"] ;;
  print ["bitwidth ="; py_str (Enum.bitWidth item)] ;;
  print ["return_only =";
         if Enum.returnedOnly item then "true" else "false"] ;;
  print_sep EmptyString
    ["extensions = ["; join "," (Enum.extensions item); "]"] ;;
  print_sep EmptyString
    ["field_extensions = ["; join "," (Enum.fieldExtensions item); "]"] ;;
  for_each (Enum.fields item) enum_field_body ;;
  print [].

Definition bitmask_flag_body (m : Flag.t) : M unit :=
  print ["[[flag]]"] ;;
  print ["name ="; Flag.name m] ;;
  print_sep EmptyString ["aliases = ["; join "," (Flag.aliases m); "]"] ;;
  print ["protect ="; value_or (Flag.protect m) "null"] ;;
  print ["value ="; py_str (Flag.value m)] ;;
  print ["multibit ="; if Flag.multiBit m then "true" else "false"] ;;
  print ["zero ="; if Flag.zero m then "true" else "false"] ;;
  print_sep EmptyString
    ["extensions = ["; join "," (Flag.extensions m); "]"].

Definition bitmask_to_toml (item : Bitmask.t) : M unit :=
  print ["[[bitmask]]"] ;;
  print ["name ="; Bitmask.name item] ;;
  print_sep EmptyString
    ["aliases = ["; join "," (Bitmask.aliases item); "]"] ;;
  print ["protect ="; value_or (Bitmask.protect item) "null"] ;;
  print ["flags_name ="; Bitmask.flagName item] ;;
  print ["bitwidth ="; py_str (Bitmask.bitWidth item)] ;;
  print ["return_only =";
         if Bitmask.returnedOnly item then "true" else "false"] ;;
  print_sep EmptyString
    ["extensions = ["; join "," (Bitmask.extensions item); "]"] ;;
  print_sep EmptyString
    ["flag_extensions = ["; join "," (Bitmask.flagExtensions item); "]"] ;;
  for_each (Bitmask.flags item) bitmask_flag_body ;;
  print [].

Definition flags_to_toml (item : Flags.t) : M unit :=
  print ["[[flags]]"] ;;
  print ["name ="; Flags.name item] ;;
  print_sep EmptyString ["aliases = ["; join "," (Flags.aliases item); "]"] ;;
  print ["bitmask_name ="; value_or (Flags.bitmaskName item) "null"] ;;
  print ["protect ="; value_or (Flags.protect item) "null"] ;;
  print ["base_flags_type ="; Flags.baseFlagsType item] ;;
  print ["bitwidth ="; py_str (Flags.bitWidth item)] ;;
  print ["return_only =";
         if Flags.returnedOnly item then "true" else "false"] ;;
  print_sep EmptyString
    ["extensions = ["; join "," (Flags.extensions item); "]"] ;;
  print [].

Definition constant_to_toml (item : Constant.t) : M unit :=
  print ["[[constant]]"] ;;
  print ["name ="; Constant.name item] ;;
  print ["type ="; Constant.type item] ;;
  print ["value ="; py_str (Constant.value item)] ;;
  print [].

Definition spirv_enable_body (m : SpirvEnables.t) : M unit :=
  print ["[[enable]]"] ;;
  print ["version ="; value_or (SpirvEnables.version m) "null"] ;;
  print ["extension ="; value_or (SpirvEnables.extension m) "null"] ;;
  print ["struct ="; value_or (SpirvEnables.struct m) "null"] ;;
  print ["feature ="; value_or (SpirvEnables.feature m) "null"] ;;
  print ["requires ="; value_or (SpirvEnables.requires m) "null"] ;;
  print ["property ="; value_or (SpirvEnables.property m) "null"] ;;
  print ["member ="; value_or (SpirvEnables.member m) "null"] ;;
  print ["value ="; value_or (SpirvEnables.value m) "null"].

Definition spirv_to_toml (item : Spirv.t) : M unit :=
  (if Spirv.extension item
   then print ["[[spirv_extension]]"]
   else print ["[[spirv_capability]]"]) ;;
  print ["name ="; Spirv.name item] ;;
  for_each (Spirv.enable item) spirv_enable_body ;;
  print [].

Definition platform_body (ne : string * string) : M unit :=
  let '(name, ext) := ne in
  print ["[[platform]]"] ;;
  print ["name = " ++ name] ;;
  print ["ext = " ++ ext] ;;
  print [].

(** [pass] *)
Definition pass : M unit := ret tt.

(** The module body after [vk = get_vulkan_object()] (lines 243-296).  The
    loop over [vk.handles] binds the module-level name [handle] at each
    turn; the other loop variables are read by no function. *)
Definition main (vk : VulkanObject.t) : M unit :=
  for_each (values (VulkanObject.extensions vk)) extension_to_toml ;;
  for_each (values (VulkanObject.versions vk)) version_to_toml ;;
  for_each (values (VulkanObject.handles vk))
    (fun handle => store_handle handle ;; handle_to_toml handle) ;;
  for_each (values (VulkanObject.commands vk)) command_to_toml ;;
  for_each (values (VulkanObject.structs vk)) struct_to_toml ;;
  for_each (values (VulkanObject.enums vk)) enum_to_toml ;;
  for_each (values (VulkanObject.bitmasks vk)) bitmask_to_toml ;;
  for_each (values (VulkanObject.flags vk)) flags_to_toml ;;
  for_each (values (VulkanObject.constants vk)) constant_to_toml ;;
  for_each (values (VulkanObject.formats vk)) (fun _ => pass) ;;
  for_each (VulkanObject.syncStage vk) (fun _ => pass) ;;
  for_each (VulkanObject.syncAccess vk) (fun _ => pass) ;;
  for_each (VulkanObject.syncPipeline vk) (fun _ => pass) ;;
  for_each (VulkanObject.spirv vk) spirv_to_toml ;;
  for_each (items (VulkanObject.platforms vk)) platform_body ;;
  print ["[vendor_tags]"] ;;
  print_sep EmptyString
    ["tags = ["; join "," (VulkanObject.vendorTags vk); "]"] ;;
  print [] ;;
  for_each (values (VulkanObject.videoCodecs vk)) (fun _ => pass).

(** The program starts with no module-level [handle] bound. *)
Definition initial : Globals := mkGlobals None.

Definition run_script (vk : VulkanObject.t) : Run unit := main vk initial.

(** ** Vocabulary of the statements *)

(** What a call prints when it starts in the initial state. *)
Definition lines (m : M unit) : list string := stdout (m initial).

(** A call that prints [stdout (m initial)] whatever the state it starts in,
    returns, and leaves the state alone. *)
Definition Pure (m : M unit) : Prop :=
  forall g, m g = mkRun (lines m) (Returned tt g).

(** [command_to_toml item] called while the module-level [handle] is [h]. *)
Definition command_record (h : Handle.t) (item : Command.t) : M unit :=
  fun _ => command_to_toml item (mkGlobals (Some h)).

(** Line [k] of a record is [key = null] whenever the attribute is [None]. *)
Definition absent_gives_null {A : Type} (f : A -> M unit)
  (attr : A -> PyVal) (k : nat) (key : string) : Prop :=
  forall g item, attr item = PyNone ->
    nth_error (stdout (f item g)) k = Some (key ++ " = null").

(** Line [k] of a record is [key = null] whenever the attribute is falsy. *)
Definition falsy_gives_null {A : Type} (f : A -> M unit)
  (attr : A -> PyVal) (k : nat) (key : string) : Prop :=
  forall g item, truthy (attr item) = false ->
    nth_error (stdout (f item g)) k = Some (key ++ " = null").

(** Line [k] of a record is [key = true] or [key = false], after the flag. *)
Definition flag_gives_token {A : Type} (f : A -> M unit)
  (attr : A -> bool) (k : nat) (key : string) : Prop :=
  forall g item,
    nth_error (stdout (f item g)) k
    = Some (key ++ " = " ++ if attr item then "true" else "false").

(** Line [k] of a record is the bracketed, comma-joined list. *)
Definition list_gives_brackets {A : Type} (f : A -> M unit)
  (attr : A -> list string) (k : nat) (key : string) : Prop :=
  forall g item,
    nth_error (stdout (f item g)) k
    = Some (key ++ " = [" ++ join "," (attr item) ++ "]").

(** Line [k] of a record is the text of the value itself. *)
Definition value_gives_str {A : Type} (f : A -> M unit)
  (attr : A -> PyVal) (k : nat) (key : string) : Prop :=
  forall g item,
    nth_error (stdout (f item g)) k = Some (key ++ " = " ++ py_str (attr item)).

(** Line [k] of a record is [l] whenever the reference is [None]. *)
Definition absent_ref_gives {A B : Type} (f : A -> M unit)
  (attr : A -> option B) (k : nat) (l : string) : Prop :=
  forall g item, attr item = None ->
    nth_error (stdout (f item g)) k = Some l.

(** [[[name]]]: an array-of-tables header. *)
Definition is_table_header (l : string) : bool := String.prefix "[[" l.

(** [[name]]: a singleton table header. *)
Definition is_singleton_header (l : string) : bool :=
  String.prefix "[" l && negb (String.prefix "[[" l).

(** A key-value line of key [key]. *)
Definition has_key (key l : string) : bool := String.prefix (key ++ " =") l.

Definition count_lines (p : string -> bool) (ls : list string) : nat :=
  List.length (filter p ls).

(** The first line of every record of a category is the array-of-tables
    header [h]. *)
Definition header_is {A : Type} (f : A -> M unit) (h : string) : Prop :=
  is_table_header h = true /\
  forall g item, nth_error (stdout (f item g)) 0 = Some h.

(** Every line the call prints, from whatever state, satisfies [p]. *)
Definition Emits {A : Type} (p : string -> bool) (m : M A) : Prop :=
  forall g, forallb p (stdout (m g)) = true.

(** The state the loop over [vk.handles] leaves behind. *)
Definition after_handles (hs : list Handle.t) (g : Globals) : Globals :=
  match hs with
  | [] => g
  | h :: hs' => mkGlobals (Some (last hs' h))
  end.

(** The traversal gets past the commands: some handle was bound, or there
    is no command to print. *)
Definition completes (vk : VulkanObject.t) : bool :=
  match VulkanObject.handles vk, VulkanObject.commands vk with
  | [], _ :: _ => false
  | _, _ => true
  end.

(** The records of the entities [xs], one after the other. *)
Definition records {A : Type} (f : A -> M unit) (xs : list A)
  : list string :=
  flat_map (fun x => lines (f x)) xs.

(** The records of the categories that precede the commands. *)
Definition before_commands (vk : VulkanObject.t) : list string :=
  records extension_to_toml (values (VulkanObject.extensions vk))
  ++ records version_to_toml (values (VulkanObject.versions vk))
  ++ records handle_to_toml (values (VulkanObject.handles vk)).

(** The records of the categories that follow the commands. *)
Definition after_commands (vk : VulkanObject.t) : list string :=
  records struct_to_toml (values (VulkanObject.structs vk))
  ++ records enum_to_toml (values (VulkanObject.enums vk))
  ++ records bitmask_to_toml (values (VulkanObject.bitmasks vk))
  ++ records flags_to_toml (values (VulkanObject.flags vk))
  ++ records constant_to_toml (values (VulkanObject.constants vk))
  ++ records spirv_to_toml (VulkanObject.spirv vk)
  ++ records platform_body (items (VulkanObject.platforms vk)).

(** The vendor-tags record. *)
Definition vendor_tags_record (vk : VulkanObject.t) : list string :=
  [ "[vendor_tags]";
    "tags = [" ++ join "," (VulkanObject.vendorTags vk) ++ "]";
    EmptyString ].

(** Everything [main] does after the loop over the commands. *)
Definition after_commands_part (vk : VulkanObject.t) : M unit :=
  for_each (values (VulkanObject.structs vk)) struct_to_toml ;;
  for_each (values (VulkanObject.enums vk)) enum_to_toml ;;
  for_each (values (VulkanObject.bitmasks vk)) bitmask_to_toml ;;
  for_each (values (VulkanObject.flags vk)) flags_to_toml ;;
  for_each (values (VulkanObject.constants vk)) constant_to_toml ;;
  for_each (values (VulkanObject.formats vk)) (fun _ => pass) ;;
  for_each (VulkanObject.syncStage vk) (fun _ => pass) ;;
  for_each (VulkanObject.syncAccess vk) (fun _ => pass) ;;
  for_each (VulkanObject.syncPipeline vk) (fun _ => pass) ;;
  for_each (VulkanObject.spirv vk) spirv_to_toml ;;
  for_each (items (VulkanObject.platforms vk)) platform_body ;;
  print ["[vendor_tags]"] ;;
  print_sep EmptyString
    ["tags = ["; join "," (VulkanObject.vendorTags vk); "]"] ;;
  print [] ;;
  for_each (values (VulkanObject.videoCodecs vk)) (fun _ => pass).

(** The command records, all printed with the handle the state holds. *)
Definition command_records (vk : VulkanObject.t) : list string :=
  stdout (for_each (values (VulkanObject.commands vk)) command_to_toml
            (after_handles (values (VulkanObject.handles vk)) initial)).

(** Modelled from the spec: the handle that owns a command is the handle
    named by the type of the command's first parameter, looked up in the
    model's handles. *)
Definition owning_handle (vk : VulkanObject.t) (cmd : Command.t)
  : option Handle.t :=
  match Command.params cmd with
  | [] => None
  | p :: _ =>
      option_map snd
        (find (fun kv => String.eqb (fst kv) (Param.type p))
           (VulkanObject.handles vk))
  end.

(** Modelled from the spec: the three lines of a command record that the
    spec derives from the owning handle. *)
Definition owner_derived_lines (h : Handle.t) : list string :=
  [ "instance = " ++ (if Handle.instance h then "true" else "false");
    "devices = " ++ (if Handle.device h then "true" else "false");
    "extensions = [" ++ join "," (Handle.extensions h) ++ "]" ].

(** Lines 5, 6 and 10 of a command record: [instance], [devices] and
    [extensions]. *)
Definition handle_derived_lines (record : list string) : list string :=
  match nth_error record 5, nth_error record 6, nth_error record 10 with
  | Some a, Some b, Some c => [a; b; c]
  | _, _, _ => []
  end.

(** The attributes the script prints through [x if x else "null"], each
    with the function or loop body that prints it, the index of its line in
    what that prints, and its key: lines 14-21 and 62 (extension and feature
    requirement), 83 (handle), 93-94 and 121-125 (command and parameter),
    134-137 and 148-157 (struct and member), 166 (enum), 185 and 196
    (bitmask and flag), 207-208 (flags), 230-237 (SPIR-V enable). *)
Definition guarded_attributes
  (P : forall A : Type, (A -> M unit) -> (A -> PyVal) -> nat -> string
       -> Prop) : Prop :=
  P _ extension_to_toml Extension.depends 6 "depends"
  /\ P _ extension_to_toml Extension.vendorTag 7 "vendor_tag"
  /\ P _ extension_to_toml Extension.platform 8 "platform"
  /\ P _ extension_to_toml Extension.protect 9 "protect"
  /\ P _ extension_to_toml Extension.promotedTo 11 "promoted_to"
  /\ P _ extension_to_toml Extension.deprecatedBy 12 "deprecated_by"
  /\ P _ extension_to_toml Extension.obsoletedBy 13 "obsoleted_by"
  /\ P _ feature_requirement_body FeatureRequirement.depends 3 "depends"
  /\ P _ handle_to_toml Handle.protect 4 "protect"
  /\ P _ command_to_toml Command.alias 2 "alias"
  /\ P _ command_to_toml Command.protect 3 "protect"
  /\ P _ command_param_body Param.length 9 "length"
  /\ P _ command_param_body Param.externSyncPointer 13
       "extern_sync_pointer"
  /\ P _ struct_to_toml Struct.protect 5 "protect"
  /\ P _ struct_to_toml Struct.sType 7 "sType"
  /\ P _ struct_member_body Member.limitType 4 "limit_type"
  /\ P _ struct_member_body Member.bitFieldWidth 11 "bits"
  /\ P _ struct_member_body Member.selector 12 "selector"
  /\ P _ enum_to_toml Enum.protect 3 "protect"
  /\ P _ bitmask_to_toml Bitmask.protect 3 "protect"
  /\ P _ bitmask_flag_body Flag.protect 3 "protect"
  /\ P _ flags_to_toml Flags.bitmaskName 3 "bitmask_name"
  /\ P _ flags_to_toml Flags.protect 4 "protect"
  /\ P _ spirv_enable_body SpirvEnables.version 1 "version"
  /\ P _ spirv_enable_body SpirvEnables.extension 2 "extension"
  /\ P _ spirv_enable_body SpirvEnables.struct 3 "struct"
  /\ P _ spirv_enable_body SpirvEnables.feature 4 "feature"
  /\ P _ spirv_enable_body SpirvEnables.requires 5 "requires"
  /\ P _ spirv_enable_body SpirvEnables.property 6 "property"
  /\ P _ spirv_enable_body SpirvEnables.member 7 "member"
  /\ P _ spirv_enable_body SpirvEnables.value 8 "value".

(** A line that is not a singleton table header. *)
Definition plain (l : string) : bool := negb (is_singleton_header l).

(** ** Sample models *)

Definition version_1_1 : Version.t :=
  Version.mk "VK_VERSION_1_1" "VK_API_VERSION_1_1" [].

Definition VkInstance : Handle.t :=
  Handle.mk "VkInstance" [] "VK_OBJECT_TYPE_INSTANCE" PyNone None
    true false [].

Definition VkDevice : Handle.t :=
  Handle.mk "VkDevice" [] "VK_OBJECT_TYPE_DEVICE" PyNone None
    false true ["VK_KHR_swapchain"].

(** The first parameter of [vkDestroyInstance]: a [VkInstance], with no
    alias and an external-sync value of [True]. *)
Definition param_instance : Param.t :=
  Param.mk "instance" PyNone "VkInstance" "VkInstance"
    false false true false PyNone false [] (PyBool true) PyNone.

Definition vkDestroyInstance : Command.t :=
  Command.mk "vkDestroyInstance" PyNone PyNone None
    false false false [] [] PyNone PyNone "void" [] [] []
    [param_instance].

(** A member with a bit-field width of 0. *)
Definition member_bits0 : Member.t :=
  Member.mk "mask" "uint32_t" "uint32_t" PyNone
    false false [] false false (PyBool false) (PyInt 0) PyNone [].

(** A struct with no owning version. *)
Definition struct_base : Struct.t :=
  Struct.mk "VkExtent2D" [] [] None PyNone false PyNone false [] []
    [member_bits0].

(** An enable condition whose only attribute is the value 0. *)
Definition enable_value0 : SpirvEnables.t :=
  SpirvEnables.mk PyNone PyNone PyNone PyNone PyNone PyNone PyNone (PyInt 0).

Definition spirv_int8 : Spirv.t :=
  Spirv.mk false "Int8" [enable_value0].

(** An extension with no special-use tag and no optional attribute. *)
Definition ext_swapchain : Extension.t :=
  Extension.mk "VK_KHR_swapchain" "VK_KHR_SWAPCHAIN_EXTENSION_NAME"
    "VK_KHR_SWAPCHAIN_SPEC_VERSION" false true
    PyNone PyNone PyNone PyNone false PyNone PyNone PyNone
    [] [] [vkDestroyInstance] [] [] [] [] [] [] [].

(** An extension with two special-use tags. *)
Definition ext_tooling : Extension.t :=
  Extension.mk "VK_EXT_tooling_info" "VK_EXT_TOOLING_INFO_EXTENSION_NAME"
    "VK_EXT_TOOLING_INFO_SPEC_VERSION" false true
    PyNone PyNone PyNone PyNone false PyNone PyNone PyNone
    ["debugging"; "devtools"] [] [] [] [] [] [] [] [] [].

(** The model in which every category is empty. *)
Definition vk_empty : VulkanObject.t :=
  VulkanObject.mk [] [] [] [] [] [] [] [] [] [] [] [] [] [] [] [] [].

(** Two handles, [VkInstance] then [VkDevice], and one command whose
    first parameter is a [VkInstance]. *)
Definition vk_two_handles : VulkanObject.t :=
  VulkanObject.mk [] []
    [("VkInstance", VkInstance); ("VkDevice", VkDevice)]
    [("vkDestroyInstance", vkDestroyInstance)]
    [] [] [] [] [] [] [] [] [] [] [] [] [].

(** One command and no handle. *)
Definition vk_no_handle : VulkanObject.t :=
  VulkanObject.mk [] [] []
    [("vkDestroyInstance", vkDestroyInstance)]
    [] [] [] [] [] [] [] [] [] [] [] ["KHR"] [].

(** One record of several categories, with a handle bound. *)
Definition vk_small : VulkanObject.t :=
  VulkanObject.mk
    [("VK_KHR_swapchain", ext_swapchain)]
    [("VK_VERSION_1_1", version_1_1)]
    [("VkInstance", VkInstance)]
    [("vkDestroyInstance", vkDestroyInstance)]
    [("VkExtent2D", struct_base)]
    [] [] [] [] [] [] [] []
    [spirv_int8]
    [("xlib", "VK_USE_PLATFORM_XLIB_KHR")]
    ["KHR"; "EXT"] [].

(** ** Vocabulary of the further properties *)

(** Line [k] of a record is [key = str(value)] whenever the attribute is
    truthy. *)
Definition truthy_gives_str {A : Type} (f : A -> M unit)
  (attr : A -> PyVal) (k : nat) (key : string) : Prop :=
  forall g item, truthy (attr item) = true ->
    nth_error (stdout (f item g)) k
    = Some (key ++ " = " ++ py_str (attr item)).

(** An empty line: what [print()] writes. *)
Definition is_blank (l : string) : bool := String.eqb l EmptyString.

(** The line is the text [h]. *)
Definition is_line (h l : string) : bool := String.eqb h l.

(** A letter or an underscore. *)
Definition is_key_char (c : ascii) : bool :=
  (Ascii.leb "a" c && Ascii.leb c "z")
  || (Ascii.leb "A" c && Ascii.leb c "Z")
  || Ascii.eqb c "_".

(** The text opens with a space, an equals sign and a space. *)
Definition opens_with_equals (l : string) : bool :=
  match l with
  | String a (String b (String c _)) =>
      Ascii.eqb a " " && Ascii.eqb b "=" && Ascii.eqb c " "
  | _ => false
  end.

(** The rest of a key, then [ = ]. *)
Fixpoint after_key (l : string) : bool :=
  match l with
  | EmptyString => false
  | String c rest =>
      if is_key_char c then after_key rest else opens_with_equals l
  end.

(** A line [key = ...], whose key is made of letters and underscores. *)
Definition is_key_value (l : string) : bool :=
  match l with
  | EmptyString => false
  | String c rest => is_key_char c && after_key rest
  end.

(** The shapes of a line: blank, an array-of-tables header, the
    vendor-tags header, or a key-value line. *)
Definition line_shape (l : string) : bool :=
  is_blank l || is_table_header l || String.eqb l "[vendor_tags]"
  || is_key_value l.

(** Started in [g], the call returns, leaves the state as it is, and
    prints [n] lines that satisfy [p]. *)
Definition Tally {A : Type} (p : string -> bool) (m : M A) (g : Globals)
  (n : nat) : Prop :=
  (exists a, outcome (m g) = Returned a g)
  /\ count_lines p (stdout (m g)) = n.

(** The number of entities that get a record of their own. *)
Definition entity_count (vk : VulkanObject.t) : nat :=
  List.length (VulkanObject.extensions vk)
  + List.length (VulkanObject.versions vk)
  + List.length (VulkanObject.handles vk)
  + List.length (VulkanObject.commands vk)
  + List.length (VulkanObject.structs vk)
  + List.length (VulkanObject.enums vk)
  + List.length (VulkanObject.bitmasks vk)
  + List.length (VulkanObject.flags vk)
  + List.length (VulkanObject.constants vk)
  + List.length (VulkanObject.spirv vk)
  + List.length (VulkanObject.platforms vk).

(** The model [vk] with other contents in the categories the script walks
    with [pass]. *)
Definition with_unmapped (vk : VulkanObject.t) (formats : dict PyVal)
  (syncStage syncAccess syncPipeline : list PyVal)
  (videoCodecs : dict PyVal) : VulkanObject.t :=
  VulkanObject.mk
    (VulkanObject.extensions vk) (VulkanObject.versions vk)
    (VulkanObject.handles vk) (VulkanObject.commands vk)
    (VulkanObject.structs vk) (VulkanObject.enums vk)
    (VulkanObject.bitmasks vk) (VulkanObject.flags vk)
    (VulkanObject.constants vk)
    formats syncStage syncAccess syncPipeline
    (VulkanObject.spirv vk) (VulkanObject.platforms vk)
    (VulkanObject.vendorTags vk) videoCodecs.

(** A member with a bit-field width of 8 and a selector. *)
Definition member_bits8 : Member.t :=
  Member.mk "flags" "uint32_t" "uint32_t" (PyStr "bitmask")
    false false [] false false PyNone (PyInt 8) (PyStr "sType") ["A"; "B"].

(** No handle and one command, with a version before it and a struct,
    a SPIR-V item, a platform and a vendor tag after it. *)
Definition vk_stop : VulkanObject.t :=
  VulkanObject.mk []
    [("VK_VERSION_1_1", version_1_1)]
    []
    [("vkDestroyInstance", vkDestroyInstance)]
    [("VkExtent2D", struct_base)]
    [] [] [] [] [] [] [] []
    [spirv_int8]
    [("xlib", "VK_USE_PLATFORM_XLIB_KHR")]
    ["KHR"] [].

(** What the call prints, started in [g], ends with the text [l]. *)
Definition Closes {A : Type} (l : string) (m : M A) (g : Globals) : Prop :=
  exists body, stdout (m g) = (body ++ [l])%list.

(** The texts end with an empty text, and hold no other. *)
Definition ends_with_blank_only (ls : list string) : Prop :=
  exists body,
    ls = (body ++ [EmptyString])%list /\ count_lines is_blank body = 0.

(** The character that ends a line. *)
Definition line_break : ascii := ascii_of_nat 10.

(** The text holds no line break. *)
Fixpoint no_line_break (s : string) : bool :=
  match s with
  | EmptyString => true
  | String c rest => negb (Ascii.eqb c line_break) && no_line_break rest
  end.

(** The lines of a text as a reader of the output sees them: the pieces
    between the line breaks (a last piece with no line break after it is a
    line too). *)
Fixpoint text_lines (s : string) : list string :=
  match s with
  | EmptyString => []
  | String c rest =>
      if Ascii.eqb c line_break then EmptyString :: text_lines rest
      else match text_lines rest with
           | [] => [String c EmptyString]
           | l :: ls => String c l :: ls
           end
  end.

(** The lines a reader sees in what the [print] calls [ls] wrote. *)
Definition written_lines (ls : list string) : list string :=
  text_lines (text_of ls).

(** * Properties *)

(** ** Running the monad *)

Lemma bind_returned {A B : Type} (m : M A) (k : A -> M B) g o a g' :
  m g = mkRun o (Returned a g') ->
  bind m k g = mkRun (o ++ stdout (k a g'))%list (outcome (k a g')).
Proof. intro H. unfold bind. rewrite H. reflexivity. Qed.

Lemma bind_raised {A B : Type} (m : M A) (k : A -> M B) g o e :
  m g = mkRun o (Raised e) ->
  bind m k g = mkRun o (Raised e).
Proof. intro H. unfold bind. rewrite H. reflexivity. Qed.

Lemma bind_run {A B : Type} (m : M A) (k : A -> M B) g :
  bind m k g
  = match outcome (m g) with
    | Returned a g' =>
        mkRun (stdout (m g) ++ stdout (k a g'))%list (outcome (k a g'))
    | Raised e => mkRun (stdout (m g)) (Raised e)
    end.
Proof. reflexivity. Qed.

Lemma run_eta {A : Type} (r : Run A) : mkRun (stdout r) (outcome r) = r.
Proof. destruct r; reflexivity. Qed.

Lemma Pure_print_sep sep args : Pure (print_sep sep args).
Proof. intro g. reflexivity. Qed.

Lemma Pure_print args : Pure (print args).
Proof. intro g. reflexivity. Qed.

Lemma Pure_ret : Pure (ret tt).
Proof. intro g. reflexivity. Qed.

Lemma Pure_bind (m : M unit) (k : unit -> M unit) :
  Pure m -> (forall u, Pure (k u)) -> Pure (bind m k).
Proof.
  intros Hm Hk g. unfold lines.
  rewrite (bind_returned m k g _ tt g (Hm g)).
  rewrite (bind_returned m k initial _ tt initial (Hm initial)).
  cbn [stdout]. rewrite (Hk tt g), (Hk tt initial). reflexivity.
Qed.

Lemma Pure_if (b : bool) (m1 m2 : M unit) :
  Pure m1 -> Pure m2 -> Pure (if b then m1 else m2).
Proof. destruct b; auto. Qed.

Lemma Pure_for_each {A : Type} (xs : list A) (body : A -> M unit) :
  (forall x, Pure (body x)) -> Pure (for_each xs body).
Proof.
  intro H. induction xs as [|x xs IH]; cbn [for_each].
  - apply Pure_ret.
  - apply Pure_bind; auto.
Qed.

Lemma lines_bind (m : M unit) (k : unit -> M unit) :
  Pure m -> lines (bind m k) = (lines m ++ lines (k tt))%list.
Proof.
  intro Hm. unfold lines.
  rewrite (bind_returned m k initial _ tt initial (Hm initial)).
  reflexivity.
Qed.

Lemma lines_for_each {A : Type} (xs : list A) (body : A -> M unit) :
  (forall x, Pure (body x)) ->
  lines (for_each xs body) = records body xs.
Proof.
  intro H. unfold records. induction xs as [|x xs IH]; cbn [for_each flat_map].
  - reflexivity.
  - rewrite lines_bind by auto. now rewrite IH.
Qed.

Lemma for_each_pure {A : Type} (xs : list A) (body : A -> M unit) g :
  (forall x, Pure (body x)) ->
  for_each xs body g
  = mkRun (records body xs) (Returned tt g).
Proof.
  intro H. rewrite (Pure_for_each xs body H g).
  now rewrite lines_for_each.
Qed.

Ltac pure_step :=
  lazymatch goal with
  | |- Pure (bind _ _) => apply Pure_bind; [| intro]
  | |- Pure (print _) => apply Pure_print
  | |- Pure (print_sep _ _) => apply Pure_print_sep
  | |- Pure (for_each _ _) => apply Pure_for_each; intro
  | |- Pure (if _ then _ else _) => apply Pure_if
  | |- Pure (let '(_, _) := ?p in _) => destruct p
  | |- Pure (let _ := _ in _) => cbv zeta
  end.

Ltac pure_tac f := unfold f; repeat pure_step.

Create HintDb pure_db.

Lemma Pure_feature_requirement_body fr : Pure (feature_requirement_body fr).
Proof. pure_tac feature_requirement_body. Qed.

Lemma Pure_extension_flags_body nf : Pure (extension_flags_body nf).
Proof. pure_tac extension_flags_body. Qed.

Lemma Pure_extension_enum_fields_body nf :
  Pure (extension_enum_fields_body nf).
Proof. pure_tac extension_enum_fields_body. Qed.

Lemma Pure_extension_flag_bits_body nf : Pure (extension_flag_bits_body nf).
Proof. pure_tac extension_flag_bits_body. Qed.

#[local] Hint Resolve Pure_feature_requirement_body
  Pure_extension_flags_body Pure_extension_enum_fields_body
  Pure_extension_flag_bits_body : pure_db.

Lemma Pure_extension_to_toml item : Pure (extension_to_toml item).
Proof. pure_tac extension_to_toml; auto with pure_db. Qed.

Lemma Pure_version_to_toml item : Pure (version_to_toml item).
Proof. pure_tac version_to_toml; auto with pure_db. Qed.

Lemma Pure_handle_to_toml item : Pure (handle_to_toml item).
Proof. pure_tac handle_to_toml. Qed.

Lemma Pure_command_param_body param : Pure (command_param_body param).
Proof. pure_tac command_param_body. Qed.

Lemma Pure_struct_member_body member : Pure (struct_member_body member).
Proof. pure_tac struct_member_body. Qed.

Lemma Pure_enum_field_body m : Pure (enum_field_body m).
Proof. pure_tac enum_field_body. Qed.

Lemma Pure_bitmask_flag_body m : Pure (bitmask_flag_body m).
Proof. pure_tac bitmask_flag_body. Qed.

Lemma Pure_spirv_enable_body m : Pure (spirv_enable_body m).
Proof. pure_tac spirv_enable_body. Qed.

#[local] Hint Resolve Pure_command_param_body Pure_struct_member_body
  Pure_enum_field_body Pure_bitmask_flag_body Pure_spirv_enable_body
  : pure_db.

Lemma Pure_struct_to_toml item : Pure (struct_to_toml item).
Proof. pure_tac struct_to_toml; auto with pure_db. Qed.

Lemma Pure_enum_to_toml item : Pure (enum_to_toml item).
Proof. pure_tac enum_to_toml; auto with pure_db. Qed.

Lemma Pure_bitmask_to_toml item : Pure (bitmask_to_toml item).
Proof. pure_tac bitmask_to_toml; auto with pure_db. Qed.

Lemma Pure_flags_to_toml item : Pure (flags_to_toml item).
Proof. pure_tac flags_to_toml. Qed.

Lemma Pure_constant_to_toml item : Pure (constant_to_toml item).
Proof. pure_tac constant_to_toml. Qed.

Lemma Pure_spirv_to_toml item : Pure (spirv_to_toml item).
Proof. pure_tac spirv_to_toml; auto with pure_db. Qed.

Lemma Pure_platform_body ne : Pure (platform_body ne).
Proof. pure_tac platform_body. Qed.

Lemma Pure_pass : Pure pass.
Proof. apply Pure_ret. Qed.

#[local] Hint Resolve Pure_extension_to_toml Pure_version_to_toml
  Pure_handle_to_toml Pure_struct_to_toml Pure_enum_to_toml
  Pure_bitmask_to_toml Pure_flags_to_toml Pure_constant_to_toml
  Pure_spirv_to_toml Pure_platform_body Pure_pass : pure_db.

(** ** The commands, with and without a handle bound *)

Lemma command_to_toml_bound h item :
  outcome (command_to_toml item (mkGlobals (Some h)))
  = Returned tt (mkGlobals (Some h)).
Proof.
  unfold command_to_toml. cbn -[for_each].
  erewrite bind_returned by (apply for_each_pure; auto with pure_db).
  reflexivity.
Qed.

Lemma command_to_toml_unbound item :
  command_to_toml item initial
  = mkRun
      [ "[[item]]";
        "name = " ++ Command.name item;
        "alias = " ++ value_or (Command.alias item) "null";
        "protect = " ++ value_or (Command.protect item) "null";
        "version = " ++ match Command.version item with
                        | Some v => Version.name v
                        | None => "null"
                        end ]
      (Raised (NameError "handle")).
Proof. reflexivity. Qed.

Lemma commands_bound h cmds :
  for_each cmds command_to_toml (mkGlobals (Some h))
  = mkRun (records (command_record h) cmds)
      (Returned tt (mkGlobals (Some h))).
Proof.
  unfold records. induction cmds as [|c cs IH]; cbn [for_each flat_map].
  - reflexivity.
  - erewrite bind_returned.
    2:{ rewrite <- (run_eta (command_to_toml c _)).
        rewrite command_to_toml_bound. reflexivity. }
    rewrite IH. reflexivity.
Qed.

Lemma commands_unbound c cs :
  for_each (c :: cs) command_to_toml initial
  = mkRun (stdout (command_to_toml c initial)) (Raised (NameError "handle")).
Proof.
  cbn [for_each]. erewrite bind_raised; [reflexivity|].
  rewrite command_to_toml_unbound. reflexivity.
Qed.

Lemma last_default {A : Type} (xs : list A) (x y : A) :
  xs <> [] -> last xs x = last xs y.
Proof.
  induction xs as [|a [|b xs] IH]; intro H; [congruence|reflexivity|].
  change (last (b :: xs) x = last (b :: xs) y). apply IH. discriminate.
Qed.

Lemma handles_loop hs g :
  for_each hs (fun handle => store_handle handle ;; handle_to_toml handle) g
  = mkRun (records handle_to_toml hs)
      (Returned tt (after_handles hs g)).
Proof.
  unfold records. revert g.
  induction hs as [|h hs IH]; intro g; cbn [for_each flat_map].
  - reflexivity.
  - erewrite bind_returned.
    2:{ erewrite bind_returned by reflexivity.
        rewrite (Pure_handle_to_toml h). reflexivity. }
    rewrite IH. cbn [stdout outcome app]. f_equal. f_equal.
    destruct hs as [|h' hs]; [reflexivity|].
    cbn [after_handles]. f_equal. f_equal.
    destruct hs as [|h'' hs]; [reflexivity|].
    change (last (h'' :: hs) h' = last (h'' :: hs) h).
    apply last_default. discriminate.
Qed.

(** ** The whole traversal *)

Lemma flat_map_nil {A B : Type} (xs : list A) :
  flat_map (fun _ : A => @nil B) xs = [].
Proof. induction xs; auto. Qed.

Lemma lines_pass_loop {A : Type} (xs : list A) :
  lines (for_each xs (fun _ => pass)) = [].
Proof.
  rewrite lines_for_each by (intro; apply Pure_pass).
  apply flat_map_nil.
Qed.

Lemma Pure_after_commands_part vk : Pure (after_commands_part vk).
Proof. pure_tac after_commands_part; auto with pure_db. Qed.

Lemma lines_after_commands_part vk :
  lines (after_commands_part vk)
  = (after_commands vk ++ vendor_tags_record vk)%list.
Proof.
  unfold after_commands_part, after_commands, vendor_tags_record, records.
  repeat (rewrite lines_bind
            by (repeat pure_step; auto with pure_db)).
  rewrite !lines_pass_loop.
  repeat (rewrite lines_for_each by auto with pure_db).
  repeat rewrite <- app_assoc. cbn [app].
  reflexivity.
Qed.

Lemma main_run vk g :
  main vk g
  = let g1 := after_handles (values (VulkanObject.handles vk)) g in
    let cmds := for_each (values (VulkanObject.commands vk))
                  command_to_toml g1 in
    match outcome cmds with
    | Returned _ g2 =>
        mkRun (before_commands vk ++ stdout cmds
               ++ after_commands vk ++ vendor_tags_record vk)
          (Returned tt g2)
    | Raised e => mkRun (before_commands vk ++ stdout cmds) (Raised e)
    end.
Proof.
  unfold main. fold (after_commands_part vk).
  erewrite bind_returned by (apply for_each_pure; auto with pure_db).
  erewrite bind_returned by (apply for_each_pure; auto with pure_db).
  erewrite bind_returned by apply handles_loop. unfold records.
  rewrite bind_run.
  destruct (for_each (values (VulkanObject.commands vk)) command_to_toml _)
    as [o [[] g2|e]]; cbn [stdout outcome].
  - rewrite (Pure_after_commands_part vk g2), lines_after_commands_part.
    cbn [stdout outcome]. unfold before_commands, records.
    now rewrite <- !app_assoc.
  - unfold before_commands, records. now rewrite <- !app_assoc.
Qed.

Lemma command_records_bound vk h hs :
  values (VulkanObject.handles vk) = h :: hs ->
  command_records vk
  = records (command_record (last hs h)) (values (VulkanObject.commands vk)).
Proof.
  intro H. unfold command_records. rewrite H. cbn [after_handles].
  now rewrite commands_bound.
Qed.

Lemma run_script_stdout vk :
  stdout (run_script vk)
  = (before_commands vk ++ command_records vk
     ++ if completes vk
        then after_commands vk ++ vendor_tags_record vk
        else [])%list.
Proof.
  unfold run_script. rewrite main_run. cbv zeta.
  fold (command_records vk). unfold command_records, completes, values.
  destruct (VulkanObject.handles vk) as [|[n h] hs]; cbn [map after_handles].
  - destruct (VulkanObject.commands vk) as [|[n c] cs]; cbn [map].
    + reflexivity.
    + rewrite commands_unbound. reflexivity.
  - rewrite commands_bound. cbn [outcome stdout].
    destruct (VulkanObject.commands vk); reflexivity.
Qed.

Lemma run_script_outcome vk :
  outcome (run_script vk)
  = if completes vk
    then Returned tt
           (after_handles (values (VulkanObject.handles vk)) initial)
    else Raised (NameError "handle").
Proof.
  unfold run_script. rewrite main_run. cbv zeta.
  unfold completes, values.
  destruct (VulkanObject.handles vk) as [|[n h] hs]; cbn [map after_handles].
  - destruct (VulkanObject.commands vk) as [|[n c] cs]; cbn [map].
    + reflexivity.
    + rewrite commands_unbound. reflexivity.
  - rewrite commands_bound. cbn [outcome stdout].
    destruct (VulkanObject.commands vk); reflexivity.
Qed.

(** ** What every printed line looks like *)

Lemma Emits_print_sep p sep args :
  p (join sep args) = true -> Emits p (print_sep sep args).
Proof. intros H g. cbn. now rewrite H. Qed.

Lemma Emits_print p args :
  p (join " " args) = true -> Emits p (print args).
Proof. apply Emits_print_sep. Qed.

Lemma Emits_ret {A : Type} p (a : A) : Emits p (ret a).
Proof. intro g. reflexivity. Qed.

Lemma Emits_load_handle p : Emits p load_handle.
Proof. intro g. unfold load_handle. now destruct (g_handle g). Qed.

Lemma Emits_store_handle p h : Emits p (store_handle h).
Proof. intro g. reflexivity. Qed.

Lemma Emits_bind {A B : Type} p (m : M A) (k : A -> M B) :
  Emits p m -> (forall a, Emits p (k a)) -> Emits p (bind m k).
Proof.
  intros Hm Hk g. rewrite bind_run.
  destruct (outcome (m g)) as [a g'|e]; cbn [stdout].
  - rewrite forallb_app, (Hm g), (Hk a g'). reflexivity.
  - apply Hm.
Qed.

Lemma Emits_if {A : Type} p (b : bool) (m1 m2 : M A) :
  Emits p m1 -> Emits p m2 -> Emits p (if b then m1 else m2).
Proof. destruct b; auto. Qed.

Lemma Emits_for_each {A : Type} p (xs : list A) (body : A -> M unit) :
  (forall x, Emits p (body x)) -> Emits p (for_each xs body).
Proof.
  intro H. induction xs as [|x xs IH]; cbn [for_each].
  - apply Emits_ret.
  - apply Emits_bind; auto.
Qed.

Ltac emits_step :=
  lazymatch goal with
  | |- Emits _ (bind _ _) => apply Emits_bind; [| intro]
  | |- Emits _ (print _) => apply Emits_print; reflexivity
  | |- Emits _ (print_sep _ _) => apply Emits_print_sep; reflexivity
  | |- Emits _ (for_each _ _) => apply Emits_for_each; intro
  | |- Emits _ (if _ then _ else _) => apply Emits_if
  | |- Emits _ load_handle => apply Emits_load_handle
  | |- Emits _ (let '(_, _) := ?p in _) => destruct p
  | |- Emits _ (let _ := _ in _) => cbv zeta
  end.

Ltac emits_tac f := intros; unfold f; repeat emits_step.

Lemma plain_feature_requirement_body fr :
  Emits plain (feature_requirement_body fr).
Proof. emits_tac feature_requirement_body. Qed.

Lemma plain_extension_flags_body nf : Emits plain (extension_flags_body nf).
Proof. emits_tac extension_flags_body. Qed.

Lemma plain_extension_enum_fields_body nf :
  Emits plain (extension_enum_fields_body nf).
Proof. emits_tac extension_enum_fields_body. Qed.

Lemma plain_extension_flag_bits_body nf :
  Emits plain (extension_flag_bits_body nf).
Proof. emits_tac extension_flag_bits_body. Qed.

Lemma plain_command_param_body param : Emits plain (command_param_body param).
Proof. emits_tac command_param_body. Qed.

Lemma plain_struct_member_body member :
  Emits plain (struct_member_body member).
Proof. emits_tac struct_member_body. Qed.

Lemma plain_enum_field_body m : Emits plain (enum_field_body m).
Proof. emits_tac enum_field_body. Qed.

Lemma plain_bitmask_flag_body m : Emits plain (bitmask_flag_body m).
Proof. emits_tac bitmask_flag_body. Qed.

Lemma plain_spirv_enable_body m : Emits plain (spirv_enable_body m).
Proof. emits_tac spirv_enable_body. Qed.

Create HintDb plain_db.

#[local] Hint Resolve plain_feature_requirement_body
  plain_extension_flags_body plain_extension_enum_fields_body
  plain_extension_flag_bits_body plain_command_param_body
  plain_struct_member_body plain_enum_field_body plain_bitmask_flag_body
  plain_spirv_enable_body : plain_db.

Lemma plain_extension_to_toml item : Emits plain (extension_to_toml item).
Proof. emits_tac extension_to_toml; auto with plain_db. Qed.

Lemma plain_version_to_toml item : Emits plain (version_to_toml item).
Proof. emits_tac version_to_toml; auto with plain_db. Qed.

Lemma plain_handle_to_toml item : Emits plain (handle_to_toml item).
Proof. emits_tac handle_to_toml. Qed.

Lemma plain_command_to_toml item : Emits plain (command_to_toml item).
Proof. emits_tac command_to_toml; auto with plain_db. Qed.

Lemma plain_struct_to_toml item : Emits plain (struct_to_toml item).
Proof. emits_tac struct_to_toml; auto with plain_db. Qed.

Lemma plain_enum_to_toml item : Emits plain (enum_to_toml item).
Proof. emits_tac enum_to_toml; auto with plain_db. Qed.

Lemma plain_bitmask_to_toml item : Emits plain (bitmask_to_toml item).
Proof. emits_tac bitmask_to_toml; auto with plain_db. Qed.

Lemma plain_spirv_to_toml item : Emits plain (spirv_to_toml item).
Proof. emits_tac spirv_to_toml; auto with plain_db. Qed.

Lemma plain_flags_to_toml item : Emits plain (flags_to_toml item).
Proof. emits_tac flags_to_toml. Qed.

Lemma plain_constant_to_toml item : Emits plain (constant_to_toml item).
Proof. emits_tac constant_to_toml. Qed.

Lemma plain_platform_body ne : Emits plain (platform_body ne).
Proof. emits_tac platform_body. Qed.

Lemma filter_plain ls :
  forallb plain ls = true -> filter is_singleton_header ls = [].
Proof.
  induction ls as [|l ls IH]; cbn [forallb filter]; [reflexivity|].
  unfold plain at 1. destruct (is_singleton_header l); cbn; [discriminate|].
  exact IH.
Qed.

Lemma filter_records_plain {A : Type} (f : A -> M unit) xs :
  (forall x, Emits plain (f x)) ->
  filter is_singleton_header (records f xs) = [].
Proof.
  intro H. unfold records. induction xs as [|x xs IH]; cbn [flat_map].
  - reflexivity.
  - rewrite filter_app, IH, app_nil_r. apply filter_plain, H.
Qed.

Lemma filter_command_records vk :
  filter is_singleton_header (command_records vk) = [].
Proof.
  apply filter_plain. unfold command_records.
  apply Emits_for_each. apply plain_command_to_toml.
Qed.

Lemma singleton_headers_of_run vk :
  filter is_singleton_header (stdout (run_script vk))
  = if completes vk then ["[vendor_tags]"] else [].
Proof.
  rewrite run_script_stdout. unfold before_commands, after_commands.
  rewrite !filter_app, filter_command_records.
  rewrite !filter_records_plain
    by first [ apply plain_extension_to_toml | apply plain_version_to_toml
             | apply plain_handle_to_toml ].
  cbn [app]. destruct (completes vk); [|reflexivity].
  rewrite !filter_app.
  rewrite !filter_records_plain
    by first [ apply plain_struct_to_toml | apply plain_enum_to_toml
             | apply plain_bitmask_to_toml | apply plain_flags_to_toml
             | apply plain_constant_to_toml | apply plain_spirv_to_toml
             | apply plain_platform_body ].
  reflexivity.
Qed.

(** ** The records of a whole run *)

Lemma filter_none (p : string -> bool) ls :
  forallb (fun l => negb (p l)) ls = true -> filter p ls = [].
Proof.
  induction ls as [|l ls IH]; cbn [forallb filter]; [reflexivity|].
  destruct (p l); cbn; [discriminate|exact IH].
Qed.

Lemma lines_version_to_toml item :
  lines (version_to_toml item)
  = ([ "[[item]]";
       "name = " ++ Version.name item;
       "api = " ++ Version.nameApi item;
       "api = " ++ Version.nameApi item ]
     ++ records feature_requirement_body (Version.featureRequirement item)
     ++ [EmptyString])%_list.
Proof.
  unfold version_to_toml.
  repeat (rewrite lines_bind by (repeat pure_step; auto with pure_db)).
  rewrite lines_for_each by auto with pure_db. reflexivity.
Qed.

Lemma no_api_in_feature_requirements frs :
  filter (has_key "api") (records feature_requirement_body frs) = [].
Proof.
  unfold records. induction frs as [|fr frs IH]; cbn [flat_map].
  - reflexivity.
  - rewrite filter_app, IH. reflexivity.
Qed.

(** C5: a version record holds two [api] lines, not one: line 70 of the
    script repeats line 69. *)
Theorem C5_version_record_has_two_api_lines :
  forall (g : Globals) (item : Version.t),
    count_lines (has_key "api") (stdout (version_to_toml item g)) = 2
    /\ nth_error (stdout (version_to_toml item g)) 2
       = Some ("api = " ++ Version.nameApi item)
    /\ nth_error (stdout (version_to_toml item g)) 3
       = Some ("api = " ++ Version.nameApi item).
Proof.
  intros g item. rewrite (Pure_version_to_toml item g). cbn [stdout].
  rewrite lines_version_to_toml. repeat split.
  unfold count_lines. rewrite !filter_app, no_api_in_feature_requirements.
  reflexivity.
Qed.

(** The categories come out in the order extensions, versions, handles,
    commands, structs, enums, bitmasks, flags, constants, SPIR-V items,
    platforms, vendor tags; a run that stops (no handle bound, some command
    to print) prints nothing after the start of its first command record.
    A SPIR-V record opens with [[[spirv_extension]]] when its discriminator
    is true and with [[[spirv_capability]]] otherwise. *)
Lemma run_output_in_category_order :
  (forall vk : VulkanObject.t,
     stdout (run_script vk)
     = (records extension_to_toml (values (VulkanObject.extensions vk))
        ++ records version_to_toml (values (VulkanObject.versions vk))
        ++ records handle_to_toml (values (VulkanObject.handles vk))
        ++ command_records vk
        ++ if completes vk
           then
             records struct_to_toml (values (VulkanObject.structs vk))
             ++ records enum_to_toml (values (VulkanObject.enums vk))
             ++ records bitmask_to_toml (values (VulkanObject.bitmasks vk))
             ++ records flags_to_toml (values (VulkanObject.flags vk))
             ++ records constant_to_toml
                  (values (VulkanObject.constants vk))
             ++ records spirv_to_toml (VulkanObject.spirv vk)
             ++ records platform_body (items (VulkanObject.platforms vk))
             ++ vendor_tags_record vk
           else [])%_list)
  /\ (forall vk : VulkanObject.t,
        command_records vk
        = match values (VulkanObject.handles vk),
                values (VulkanObject.commands vk) with
          | h :: hs, cmds => records (command_record (last hs h)) cmds
          | [], [] => []
          | [], c :: _ => lines (command_to_toml c)
          end)
  /\ (forall (g : Globals) (item : Spirv.t),
        nth_error (stdout (spirv_to_toml item g)) 0
        = Some (if Spirv.extension item
                then "[[spirv_extension]]"
                else "[[spirv_capability]]")).
Proof.
  split; [|split].
  - intro vk. rewrite run_script_stdout.
    unfold before_commands, after_commands.
    now rewrite <- !app_assoc.
  - intro vk. destruct (values (VulkanObject.handles vk)) as [|h hs] eqn:Hh.
    + unfold command_records. rewrite Hh. cbn [after_handles].
      destruct (values (VulkanObject.commands vk)) as [|c cs].
      * reflexivity.
      * rewrite commands_unbound. reflexivity.
    + now apply command_records_bound.
  - intros g item. unfold spirv_to_toml.
    destruct (Spirv.extension item); reflexivity.
Qed.

(** C8: with no handle and one command the run raises [NameError] inside
    the first command record (line 96): the struct, the SPIR-V item, the
    platform and the vendor tags of the model get no record, so the
    categories after the commands, and the vendor-tags record that should
    come last, are missing from the output. *)
Theorem C8_later_categories_missing_without_handle :
  VulkanObject.structs vk_stop <> []
  /\ VulkanObject.spirv vk_stop <> []
  /\ VulkanObject.platforms vk_stop <> []
  /\ run_script vk_stop
     = mkRun
         [ "[[item]]"; "name = VK_VERSION_1_1"; "api = VK_API_VERSION_1_1";
           "api = VK_API_VERSION_1_1"; EmptyString;
           "[[item]]"; "name = vkDestroyInstance"; "alias = null";
           "protect = null"; "version = null" ]
         (Raised (NameError "handle"))
  /\ ~ In "name = VkExtent2D" (stdout (run_script vk_stop))
  /\ ~ In "[[spirv_capability]]" (stdout (run_script vk_stop))
  /\ ~ In "[[platform]]" (stdout (run_script vk_stop))
  /\ ~ In "[vendor_tags]" (stdout (run_script vk_stop)).
Proof.
  repeat split; try discriminate; cbn; intuition discriminate.
Qed.

Lemma run_script_empty :
  run_script vk_empty
  = mkRun ["[vendor_tags]"; "tags = []"; EmptyString] (Returned tt initial).
Proof. reflexivity. Qed.

Lemma completed_run_ends_with_vendor_tags vk :
  completes vk = true ->
  outcome (run_script vk)
  = Returned tt (after_handles (values (VulkanObject.handles vk)) initial)
  /\ stdout (run_script vk)
     = (before_commands vk ++ command_records vk ++ after_commands vk
        ++ vendor_tags_record vk)%_list.
Proof.
  intro H. rewrite run_script_outcome, run_script_stdout, H. auto.
Qed.

(** C10: with no handle and one command the run raises [NameError] at the
    first read of [handle] (line 96), inside the command record: the output
    stops after the record's [version] line and the vendor-tags record is
    never printed. *)
Theorem C10_no_vendor_tags_without_handle :
  run_script vk_no_handle
  = mkRun
      [ "[[item]]"; "name = vkDestroyInstance"; "alias = null";
        "protect = null"; "version = null" ]
      (Raised (NameError "handle"))
  /\ ~ In "[vendor_tags]" (stdout (run_script vk_no_handle))
  /\ last (stdout (run_script vk_no_handle)) "-" <> EmptyString.
Proof.
  split; [reflexivity|]. split.
  - cbn. intuition discriminate.
  - cbn. discriminate.
Qed.

(** ** Headers *)

(** C6 (counterexample): the record of a version and the record of a
    handle open with the same header, [[[item]]]; so do the record of a
    command and the record of a struct. *)
Lemma C6_counterexample_shared_header :
  hd_error (lines (version_to_toml version_1_1))
  = hd_error (lines (handle_to_toml VkInstance))
  /\ hd_error (lines (version_to_toml version_1_1)) = Some "[[item]]"
  /\ hd_error (lines (command_record VkInstance vkDestroyInstance))
     = hd_error (lines (struct_to_toml struct_base)).
Proof. repeat split. Qed.

(** C6 (amended): every record of an entity opens with an array-of-tables
    header: [[[extension]]], [[[enum]]], [[[bitmask]]], [[[flags]]],
    [[[constant]]], [[[spirv_extension]]] or [[[spirv_capability]]] and
    [[[platform]]] for their categories, and the one header [[[item]]] for
    versions, handles, commands and structs alike.  In a run that gets past
    the commands the only line of the singleton form is [[vendor_tags]], and
    it is printed once. *)
Theorem C6_record_headers :
  header_is extension_to_toml "[[extension]]"
  /\ header_is version_to_toml "[[item]]"
  /\ header_is handle_to_toml "[[item]]"
  /\ header_is command_to_toml "[[item]]"
  /\ header_is struct_to_toml "[[item]]"
  /\ header_is enum_to_toml "[[enum]]"
  /\ header_is bitmask_to_toml "[[bitmask]]"
  /\ header_is flags_to_toml "[[flags]]"
  /\ header_is constant_to_toml "[[constant]]"
  /\ (forall (g : Globals) (item : Spirv.t),
        nth_error (stdout (spirv_to_toml item g)) 0
        = Some (if Spirv.extension item
                then "[[spirv_extension]]"
                else "[[spirv_capability]]"))
  /\ header_is platform_body "[[platform]]"
  /\ (forall vk : VulkanObject.t,
        completes vk = true ->
        filter is_singleton_header (stdout (run_script vk))
        = ["[vendor_tags]"]).
Proof.
  repeat match goal with |- _ /\ _ => split end;
    try (split; [reflexivity | intros g item; reflexivity]).
  - intros g item. unfold spirv_to_toml.
    destruct (Spirv.extension item); reflexivity.
  - split; [reflexivity | intros g [name ext]; reflexivity].
  - intros vk H. rewrite singleton_headers_of_run, H. reflexivity.
Qed.

(** The model [vk_small] gets past its commands, and its output holds
    [[vendor_tags]] once. *)
Lemma C6_record_headers_witness :
  filter is_singleton_header (stdout (run_script vk_small))
  = ["[vendor_tags]"].
Proof.
  destruct C6_record_headers as (_ & _ & _ & _ & _ & _ & _ & _ & _ & _ & _ & H).
  apply H. reflexivity.
Defined.

(** ** The handle a command record reads *)

Lemma command_record_reads_bound_handle h item :
  handle_derived_lines (lines (command_record h item))
  = owner_derived_lines h.
Proof. reflexivity. Qed.

Lemma commands_read_last_handle vk h hs :
  values (VulkanObject.handles vk) = h :: hs ->
  command_records vk
  = records (command_record (last hs h)) (values (VulkanObject.commands vk))
  /\ forall item,
       handle_derived_lines (lines (command_record (last hs h) item))
       = owner_derived_lines (last hs h).
Proof.
  intro H. split.
  - now apply command_records_bound.
  - intro item. apply command_record_reads_bound_handle.
Qed.

(** C1: the [instance], [devices] and [extensions] lines of a command
    record are those of the handle the loop over the handles visited last,
    not those of the handle that owns the command: [vkDestroyInstance]
    belongs to [VkInstance] and is printed with the fields of [VkDevice]. *)
Theorem C1_command_printed_with_last_visited_handle :
  owning_handle vk_two_handles vkDestroyInstance = Some VkInstance
  /\ command_records vk_two_handles
     = lines (command_record VkDevice vkDestroyInstance)
  /\ handle_derived_lines (command_records vk_two_handles)
     = [ "instance = false"; "devices = true";
         "extensions = [VK_KHR_swapchain]" ]
  /\ owner_derived_lines VkInstance
     = [ "instance = true"; "devices = false"; "extensions = []" ]
  /\ handle_derived_lines (command_records vk_two_handles)
     <> owner_derived_lines VkInstance.
Proof.
  repeat split. discriminate.
Qed.

(** ** Optional attributes *)

Lemma guarded_attributes_falsy : guarded_attributes (@falsy_gives_null).
Proof.
  unfold guarded_attributes, falsy_gives_null.
  repeat match goal with |- _ /\ _ => split end;
    intros g item H;
    cbv delta [extension_to_toml feature_requirement_body handle_to_toml
               command_to_toml command_param_body struct_to_toml
               struct_member_body enum_to_toml bitmask_to_toml
               bitmask_flag_body flags_to_toml spirv_enable_body];
    unfold value_or; rewrite H; reflexivity.
Qed.

Lemma falsy_covers_absent {A : Type} (f : A -> M unit) attr k key :
  falsy_gives_null f attr k key -> absent_gives_null f attr k key.
Proof. intros H g item E. apply H. now rewrite E. Qed.

Lemma guarded_attributes_weaken
  (P Q : forall A : Type, (A -> M unit) -> (A -> PyVal) -> nat -> string
         -> Prop) :
  (forall A f attr k key, P A f attr k key -> Q A f attr k key) ->
  guarded_attributes P -> guarded_attributes Q.
Proof.
  intros W H. unfold guarded_attributes in *.
  repeat match goal with
         | H : _ /\ _ |- _ => destruct H
         | |- _ /\ _ => split
         end; apply W; assumption.
Qed.

(** C2 (counterexample): a struct with no owning version prints the
    default name [VK_VERSION_1_0], not [null]; and a parameter with no
    alias prints [None]. *)
Lemma C2_counterexample_struct_version :
  Struct.version struct_base = None
  /\ nth_error (lines (struct_to_toml struct_base)) 4
     = Some "version = VK_VERSION_1_0"
  /\ ~ In "version = null" (lines (struct_to_toml struct_base))
  /\ Param.alias param_instance = PyNone
  /\ nth_error (lines (command_param_body param_instance)) 2
     = Some "alias = None".
Proof.
  repeat split. cbn. intuition discriminate.
Qed.

(** C2 (amended): every optional attribute the script guards with the null
    sentinel prints [key = null] on its own line when it is absent, and so
    do a handle's parent and a command's owning version; a struct with no
    owning version prints [version = VK_VERSION_1_0]. *)
Theorem C2_absent_optional_renders_null :
  guarded_attributes (@absent_gives_null)
  /\ absent_ref_gives handle_to_toml Handle.parent 5 "parent = null"
  /\ absent_ref_gives command_to_toml Command.version 4 "version = null"
  /\ absent_ref_gives struct_to_toml Struct.version 4
       "version = VK_VERSION_1_0".
Proof.
  split.
  - apply (guarded_attributes_weaken (@falsy_gives_null)).
    + intros A f attr k key. apply falsy_covers_absent.
    + apply guarded_attributes_falsy.
  - repeat split; intros g item H.
    + unfold handle_to_toml. rewrite H. reflexivity.
    + unfold command_to_toml. rewrite H. reflexivity.
    + unfold struct_to_toml. rewrite H. reflexivity.
Qed.

(** The extension [ext_swapchain] has no [depends]: line 6 of its record is
    [depends = null]. *)
Lemma C2_absent_optional_renders_null_witness :
  nth_error (stdout (extension_to_toml ext_swapchain initial)) 6
  = Some "depends = null".
Proof.
  destruct C2_absent_optional_renders_null as [[H _] _].
  apply H. reflexivity.
Defined.

(** C9: every attribute guarded by the null sentinel prints [key = null]
    when its value is falsy, the line an absent value gives: a bit-field
    width of 0 prints [bits = null], an enable value of 0 prints
    [value = null], and so do an empty string and [False]. *)
Theorem C9_falsy_value_renders_null :
  guarded_attributes (@falsy_gives_null)
  /\ truthy PyNone = false
  /\ truthy (PyInt 0) = false
  /\ truthy (PyStr EmptyString) = false
  /\ truthy (PyBool false) = false
  /\ Member.bitFieldWidth member_bits0 = PyInt 0
  /\ nth_error (lines (struct_member_body member_bits0)) 11
     = Some "bits = null"
  /\ SpirvEnables.value enable_value0 = PyInt 0
  /\ nth_error (lines (spirv_enable_body enable_value0)) 8
     = Some "value = null".
Proof.
  split; [apply guarded_attributes_falsy | repeat split].
Qed.

(** The member [member_bits0] has a bit-field width of 0, which is falsy:
    line 11 of its record is [bits = null]. *)
Lemma C9_falsy_value_renders_null_witness :
  nth_error (stdout (struct_member_body member_bits0 initial)) 11
  = Some "bits = null".
Proof.
  destruct C9_falsy_value_renders_null as [H _].
  unfold guarded_attributes in H.
  destruct H as (_ & _ & _ & _ & _ & _ & _ & _ & _ & _ & _ & _ & _ & _ & _
                 & _ & H & _).
  apply H. reflexivity.
Defined.

(** ** Lists *)

Lemma join_nil sep : join sep [] = EmptyString.
Proof. reflexivity. Qed.

Lemma join_three : join "," ["A"; "B"; "C"] = "A,B,C".
Proof. reflexivity. Qed.

Ltac line_tac :=
  unfold list_gives_brackets, flag_gives_token, value_gives_str;
  intros; reflexivity.

(** The list attributes other than [special_use] are printed between
    brackets. *)
Lemma sibling_lists_are_bracketed :
  list_gives_brackets extension_to_toml
    (fun e => map Handle.name (Extension.handles e)) 15 "handles"
  /\ list_gives_brackets extension_to_toml
       (fun e => map Command.name (Extension.commands e)) 16 "commands"
  /\ list_gives_brackets extension_to_toml
       (fun e => map Struct.name (Extension.structs e)) 17 "structs"
  /\ list_gives_brackets extension_to_toml
       (fun e => map Enum.name (Extension.enums e)) 18 "enums"
  /\ list_gives_brackets extension_to_toml
       (fun e => map Bitmask.name (Extension.bitmasks e)) 19 "bitmasks"
  /\ list_gives_brackets handle_to_toml Handle.aliases 2 "aliases"
  /\ list_gives_brackets handle_to_toml Handle.extensions 8 "extensions"
  /\ (forall h, list_gives_brackets (command_record h) Command.tasks 11
                  "tasks")
  /\ (forall h, list_gives_brackets (command_record h) Command.queues 12
                  "queues")
  /\ (forall h, list_gives_brackets (command_record h)
                  Command.successCodes 16 "success_codes")
  /\ (forall h, list_gives_brackets (command_record h)
                  Command.errorCodes 17 "error_codes")
  /\ (forall h, list_gives_brackets (command_record h)
                  Command.implicitExternSyncParams 18
                  "implicit_extern_sync_params")
  /\ list_gives_brackets command_param_body Param.fixedSizeArray 11
       "array_size"
  /\ list_gives_brackets struct_to_toml Struct.aliases 2 "aliases"
  /\ list_gives_brackets struct_to_toml Struct.extensions 3 "extensions"
  /\ list_gives_brackets struct_to_toml Struct.extends 9 "extends"
  /\ list_gives_brackets struct_to_toml Struct.extendedBy 10 "extended_by"
  /\ list_gives_brackets struct_member_body Member.fixedSizeArray 7
       "array_size"
  /\ list_gives_brackets struct_member_body Member.selection 13 "selection"
  /\ list_gives_brackets enum_to_toml Enum.aliases 2 "aliases"
  /\ list_gives_brackets enum_to_toml Enum.extensions 6 "extensions"
  /\ list_gives_brackets enum_to_toml Enum.fieldExtensions 7
       "field_extensions"
  /\ list_gives_brackets enum_field_body EnumField.aliases 2 "aliases"
  /\ list_gives_brackets enum_field_body EnumField.extensions 5
       "extensions"
  /\ list_gives_brackets bitmask_to_toml Bitmask.aliases 2 "aliases"
  /\ list_gives_brackets bitmask_to_toml Bitmask.extensions 7 "extensions"
  /\ list_gives_brackets bitmask_to_toml Bitmask.flagExtensions 8
       "flag_extensions"
  /\ list_gives_brackets bitmask_flag_body Flag.aliases 2 "aliases"
  /\ list_gives_brackets bitmask_flag_body Flag.extensions 7 "extensions"
  /\ list_gives_brackets flags_to_toml Flags.aliases 2 "aliases"
  /\ list_gives_brackets flags_to_toml Flags.extensions 8 "extensions".
Proof.
  repeat match goal with |- _ /\ _ => split end;
    line_tac.
Qed.

(** C3: an extension's special-use tags are printed comma-joined but
    without the brackets (line 22 of the script, unlike lines 26-38): two
    tags print [special_use = debugging,devtools], and no tag prints
    [special_use = ] rather than [special_use = []]. *)
Theorem C3_special_use_printed_without_brackets :
  (forall (g : Globals) (item : Extension.t),
     nth_error (stdout (extension_to_toml item g)) 14
     = Some ("special_use = " ++ join "," (Extension.specialUse item)))
  /\ nth_error (lines (extension_to_toml ext_tooling)) 14
     = Some "special_use = debugging,devtools"
  /\ Extension.specialUse ext_swapchain = []
  /\ nth_error (lines (extension_to_toml ext_swapchain)) 14
     = Some "special_use = "
  /\ ~ In "special_use = []" (lines (extension_to_toml ext_swapchain)).
Proof.
  repeat split. cbn. intuition discriminate.
Qed.

(** ** Booleans *)

(** C4 (counterexample): a parameter whose external-sync value is [True]
    prints [extern_sync = True], and a member whose value is [False] prints
    [extern_sync = False]. *)
Lemma C4_counterexample_extern_sync :
  Param.externSync param_instance = PyBool true
  /\ nth_error (lines (command_param_body param_instance)) 12
     = Some "extern_sync = True"
  /\ Member.externSync member_bits0 = PyBool false
  /\ nth_error (lines (struct_member_body member_bits0)) 10
     = Some "extern_sync = False"
  /\ ~ In "extern_sync = true" (lines (command_param_body param_instance))
  /\ ~ In "extern_sync = false" (lines (struct_member_body member_bits0)).
Proof.
  repeat split; cbn; intuition discriminate.
Qed.

(** C4 (amended): every boolean attribute the script prints through
    ["true" if x else "false"] prints exactly [true] or [false], after its
    value; the [instance] and [devices] lines of a command record do so for
    the bound handle; a parameter's and a member's [extern_sync] line holds
    the text of the value itself. *)
Theorem C4_flags_print_true_or_false :
  flag_gives_token extension_to_toml Extension.instance 4 "instance"
  /\ flag_gives_token extension_to_toml Extension.device 5 "device"
  /\ flag_gives_token extension_to_toml Extension.provisional 10
       "provisional"
  /\ flag_gives_token handle_to_toml Handle.instance 6 "instance"
  /\ flag_gives_token handle_to_toml Handle.device 7 "devices"
  /\ (forall item, flag_gives_token (fun h => command_record h item)
                     Handle.instance 5 "instance")
  /\ (forall item, flag_gives_token (fun h => command_record h item)
                     Handle.device 6 "devices")
  /\ (forall h, flag_gives_token (command_record h) Command.primary 7
                  "primary")
  /\ (forall h, flag_gives_token (command_record h) Command.secondary 8
                  "secondary")
  /\ (forall h, flag_gives_token (command_record h) Command.allowNoQueues 9
                  "allow_no_queues")
  /\ flag_gives_token command_param_body Param.const 5 "const"
  /\ flag_gives_token command_param_body Param.pointer 6 "pointer"
  /\ flag_gives_token command_param_body Param.optional 7 "optional"
  /\ flag_gives_token command_param_body Param.optionalPointer 8
       "optional_pointer"
  /\ flag_gives_token command_param_body Param.nullTerminated 10
       "null_terminated"
  /\ flag_gives_token struct_to_toml Struct.union 6 "union"
  /\ flag_gives_token struct_to_toml Struct.allowDuplicate 8
       "allow_duplicate"
  /\ flag_gives_token struct_member_body Member.const 5 "const"
  /\ flag_gives_token struct_member_body Member.pointer 6 "pointer"
  /\ flag_gives_token struct_member_body Member.optional 8 "optional"
  /\ flag_gives_token struct_member_body Member.optionalPointer 9
       "optional_ptr"
  /\ flag_gives_token enum_to_toml Enum.returnedOnly 5 "return_only"
  /\ flag_gives_token enum_field_body EnumField.negative 3 "negative"
  /\ flag_gives_token bitmask_to_toml Bitmask.returnedOnly 6 "return_only"
  /\ flag_gives_token bitmask_flag_body Flag.multiBit 5 "multibit"
  /\ flag_gives_token bitmask_flag_body Flag.zero 6 "zero"
  /\ flag_gives_token flags_to_toml Flags.returnedOnly 7 "return_only"
  /\ value_gives_str command_param_body Param.externSync 12 "extern_sync"
  /\ value_gives_str struct_member_body Member.externSync 10 "extern_sync".
Proof.
  repeat match goal with |- _ /\ _ => split end;
    line_tac.
Qed.

(** ** SPIR-V enable conditions *)

Lemma lines_spirv_to_toml item :
  lines (spirv_to_toml item)
  = ([ if Spirv.extension item
       then "[[spirv_extension]]"
       else "[[spirv_capability]]";
       "name = " ++ Spirv.name item ]
     ++ records spirv_enable_body (Spirv.enable item)
     ++ [EmptyString])%_list.
Proof.
  unfold spirv_to_toml.
  repeat (rewrite lines_bind by (repeat pure_step; auto with pure_db)).
  rewrite lines_for_each by auto with pure_db.
  destruct (Spirv.extension item); reflexivity.
Qed.



(** * Further properties of the script *)

(** ** When the run stops *)

(** X1: the run raises [NameError] for [handle] exactly when the model has
    no handle and at least one command; in every other case it returns,
    with [handle] bound to the last handle if there is one. *)
Theorem X1_run_raises_iff_command_without_handle :
  forall vk : VulkanObject.t,
    (outcome (run_script vk) = Raised (NameError "handle")
     <-> VulkanObject.handles vk = []
         /\ VulkanObject.commands vk <> [])
    /\ (outcome (run_script vk)
        = Returned tt
            (after_handles (values (VulkanObject.handles vk)) initial)
        <-> VulkanObject.handles vk <> []
            \/ VulkanObject.commands vk = []).
Proof.
  intro vk. rewrite run_script_outcome. unfold completes.
  destruct (VulkanObject.handles vk) as [|h hs];
    destruct (VulkanObject.commands vk) as [|c cs];
    repeat split; intros; try reflexivity; try discriminate;
    try tauto; intuition congruence.
Qed.

(** X2: when the model has no handle and some command, the output is the
    extension records, the version records and the first five lines of the
    first command, and nothing else: no later command, no later category. *)
Theorem X2_output_of_a_stopped_run :
  forall (vk : VulkanObject.t) (n : string) (c : Command.t)
         (cs : dict Command.t),
    VulkanObject.handles vk = [] ->
    VulkanObject.commands vk = (n, c) :: cs ->
    stdout (run_script vk)
    = (records extension_to_toml (values (VulkanObject.extensions vk))
       ++ records version_to_toml (values (VulkanObject.versions vk))
       ++ [ "[[item]]";
            "name = " ++ Command.name c;
            "alias = " ++ value_or (Command.alias c) "null";
            "protect = " ++ value_or (Command.protect c) "null";
            "version = " ++ match Command.version c with
                            | Some v => Version.name v
                            | None => "null"
                            end ])%_list.
Proof.
  intros vk n c cs Hh Hc. rewrite run_script_stdout.
  unfold completes, before_commands, command_records.
  rewrite Hh, Hc. cbn [values map after_handles records flat_map].
  rewrite commands_unbound, command_to_toml_unbound. cbn [stdout snd].
  rewrite !app_nil_r. now rewrite <- app_assoc.
Qed.

Lemma X2_output_of_a_stopped_run_witness :
  stdout (run_script vk_no_handle)
  = [ "[[item]]"; "name = vkDestroyInstance"; "alias = null";
      "protect = null"; "version = null" ].
Proof.
  apply (X2_output_of_a_stopped_run vk_no_handle "vkDestroyInstance"
           vkDestroyInstance []); reflexivity.
Defined.

(** ** The categories walked with [pass] *)

(** X3: the contents of [formats], [syncStage], [syncAccess],
    [syncPipeline] and [videoCodecs] change nothing: neither the output nor
    the way the run ends. *)
Theorem X3_unmapped_categories_print_nothing :
  forall (vk : VulkanObject.t) (formats : dict PyVal)
         (syncStage syncAccess syncPipeline : list PyVal)
         (videoCodecs : dict PyVal),
    run_script
      (with_unmapped vk formats syncStage syncAccess syncPipeline
         videoCodecs)
    = run_script vk.
Proof.
  intros.
  rewrite <- (run_eta (run_script (with_unmapped _ _ _ _ _ _))).
  rewrite <- (run_eta (run_script vk)).
  rewrite !run_script_stdout, !run_script_outcome. reflexivity.
Qed.

(** ** The handle of the command records *)

(** X8: when the model's handles end with [h], every command record is
    printed with [h]: its [instance], [devices] and [extensions] lines are
    those of [h], whatever the command and whatever the handles before. *)
Theorem X8_commands_carry_the_last_handle :
  forall (vk : VulkanObject.t) (hs : list Handle.t) (h : Handle.t),
    values (VulkanObject.handles vk) = (hs ++ [h])%list ->
    command_records vk
    = records (command_record h) (values (VulkanObject.commands vk))
    /\ forall item : Command.t,
         nth_error (lines (command_record h item)) 5
         = Some ("instance = "
                 ++ if Handle.instance h then "true" else "false")
         /\ nth_error (lines (command_record h item)) 6
            = Some ("devices = "
                    ++ if Handle.device h then "true" else "false")
         /\ nth_error (lines (command_record h item)) 10
            = Some ("extensions = [" ++ join "," (Handle.extensions h)
                    ++ "]").
Proof.
  intros vk hs h H. split; [|intro item; repeat split].
  destruct hs as [|h0 hs].
  - now rewrite (command_records_bound vk h [] H).
  - rewrite (command_records_bound vk h0 (hs ++ [h]) H).
    now rewrite last_last.
Qed.

Lemma X8_commands_carry_the_last_handle_witness :
  command_records vk_two_handles
  = records (command_record VkDevice) [vkDestroyInstance].
Proof.
  apply (X8_commands_carry_the_last_handle vk_two_handles [VkInstance]
           VkDevice).
  reflexivity.
Defined.

(** ** Present values *)

(** X7: an attribute printed through the null guard prints the text of
    its value when the value is truthy: a bit-field width of 8 prints
    [bits = 8]. *)
Theorem X7_truthy_value_renders_its_text :
  guarded_attributes (@truthy_gives_str)
  /\ nth_error (lines (struct_member_body member_bits8)) 11
     = Some "bits = 8"
  /\ nth_error (lines (struct_member_body member_bits8)) 12
     = Some "selector = sType".
Proof.
  split; [|split; reflexivity].
  unfold guarded_attributes, truthy_gives_str.
  repeat match goal with |- _ /\ _ => split end;
    intros g item H;
    cbv delta [extension_to_toml feature_requirement_body handle_to_toml
               command_to_toml command_param_body struct_to_toml
               struct_member_body enum_to_toml bitmask_to_toml
               bitmask_flag_body flags_to_toml spirv_enable_body];
    unfold value_or; rewrite H; reflexivity.
Qed.

Lemma X7_truthy_value_renders_its_text_witness :
  nth_error (stdout (struct_member_body member_bits8 initial)) 11
  = Some ("bits = " ++ py_str (PyInt 8)).
Proof.
  destruct X7_truthy_value_renders_its_text as [H _].
  unfold guarded_attributes in H.
  destruct H as (_ & _ & _ & _ & _ & _ & _ & _ & _ & _ & _ & _ & _ & _ & _
                 & _ & H & _).
  apply (H initial member_bits8). reflexivity.
Defined.

(** ** The lines a reader sees *)

Lemma append_assoc (a b c : string) : (a ++ b) ++ c = a ++ (b ++ c).
Proof. induction a as [|x a IH]; cbn; congruence. Qed.

Lemma text_of_cons l ls :
  text_of (l :: ls) = l ++ String line_break (text_of ls).
Proof.
  unfold text_of. cbn [map String.concat].
  destruct (map _ ls) as [|x xs] eqn:E.
  - reflexivity.
  - change (String.concat EmptyString
              ((l ++ String (ascii_of_nat 10) EmptyString) :: x :: xs))
      with ((l ++ String (ascii_of_nat 10) EmptyString)
            ++ String.concat EmptyString (x :: xs)).
    now rewrite append_assoc.
Qed.

Lemma text_lines_line l rest :
  no_line_break l = true ->
  text_lines (l ++ String line_break rest) = l :: text_lines rest.
Proof.
  induction l as [|c l IH]; cbn [no_line_break append text_lines]; intro H.
  - now rewrite Ascii.eqb_refl.
  - apply andb_prop in H. destruct H as [Hc Hl].
    apply negb_true_iff in Hc. rewrite Hc, (IH Hl). reflexivity.
Qed.

Lemma written_lines_same ls :
  forallb no_line_break ls = true -> written_lines ls = ls.
Proof.
  unfold written_lines. induction ls as [|l ls IH]; cbn [forallb]; intro H.
  - reflexivity.
  - apply andb_prop in H. destruct H as [Hl Hls].
    rewrite text_of_cons, (text_lines_line _ _ Hl), (IH Hls). reflexivity.
Qed.

(** ** The shape of the lines *)

Lemma shape_pass : Emits line_shape pass.
Proof. apply Emits_ret. Qed.

Lemma every_print_has_a_known_shape (vk : VulkanObject.t) :
  Emits line_shape (main vk).
Proof.
  unfold main. repeat emits_step;
    try apply Emits_store_handle; try apply shape_pass;
    unfold extension_to_toml, version_to_toml, handle_to_toml,
      command_to_toml, struct_to_toml, enum_to_toml, bitmask_to_toml,
      flags_to_toml, constant_to_toml, spirv_to_toml, platform_body;
    repeat emits_step;
    unfold extension_flags_body, extension_enum_fields_body,
      extension_flag_bits_body, feature_requirement_body,
      command_param_body, struct_member_body, enum_field_body,
      bitmask_flag_body, spirv_enable_body;
    repeat emits_step.
Qed.



(** ** Counting lines *)

Lemma count_lines_app p (xs ys : list string) :
  count_lines p (xs ++ ys) = count_lines p xs + count_lines p ys.
Proof. unfold count_lines. now rewrite filter_app, length_app. Qed.

Lemma count_lines_all (ls : list string) :
  count_lines (fun _ => true) ls = List.length ls.
Proof.
  unfold count_lines. induction ls as [|l ls IH]; cbn; congruence.
Qed.

Lemma Tally_weaken {A : Type} p (m : M A) g n n' :
  Tally p m g n -> n = n' -> Tally p m g n'.
Proof. now intros H <-. Qed.

Lemma Tally_print_sep_hit p sep args g :
  p (join sep args) = true -> Tally p (print_sep sep args) g 1.
Proof.
  intro H. split; [now exists tt|]. unfold count_lines. cbn.
  now rewrite H.
Qed.

Lemma Tally_print_sep_miss p sep args g :
  p (join sep args) = false -> Tally p (print_sep sep args) g 0.
Proof.
  intro H. split; [now exists tt|]. unfold count_lines. cbn.
  now rewrite H.
Qed.

Lemma Tally_print_hit p args g :
  p (join " " args) = true -> Tally p (print args) g 1.
Proof. apply Tally_print_sep_hit. Qed.

Lemma Tally_print_miss p args g :
  p (join " " args) = false -> Tally p (print args) g 0.
Proof. apply Tally_print_sep_miss. Qed.

Lemma Tally_ret {A : Type} p (a : A) g : Tally p (ret a) g 0.
Proof. split; [now exists a|reflexivity]. Qed.

Lemma Tally_load_handle p h :
  Tally p load_handle (mkGlobals (Some h)) 0.
Proof. split; [now exists h|reflexivity]. Qed.

Lemma Tally_bind {A B : Type} p (m : M A) (k : A -> M B) g n1 n2 :
  Tally p m g n1 -> (forall a, Tally p (k a) g n2) ->
  Tally p (bind m k) g (n1 + n2).
Proof.
  intros [[a Ha] Hn] Hk. unfold Tally. rewrite bind_run, Ha.
  destruct (Hk a) as [[b Hb] Hn2]. split.
  - exists b. exact Hb.
  - cbn [stdout]. now rewrite count_lines_app, Hn, Hn2.
Qed.

Lemma Tally_if {A : Type} p (b : bool) (m1 m2 : M A) g n :
  Tally p m1 g n -> Tally p m2 g n -> Tally p (if b then m1 else m2) g n.
Proof. destruct b; auto. Qed.

Lemma Tally_for_each {A : Type} p (xs : list A) (body : A -> M unit) g n :
  (forall x, Tally p (body x) g n) ->
  Tally p (for_each xs body) g (n * List.length xs).
Proof.
  intro H. induction xs as [|x xs IH]; cbn [for_each List.length].
  - rewrite Nat.mul_0_r. apply Tally_ret.
  - eapply Tally_weaken.
    + apply Tally_bind; [apply H | intro; apply IH].
    + now rewrite Nat.mul_succ_r, Nat.add_comm.
Qed.

Lemma Tally_count {A : Type} p (m : M A) g n n' :
  Tally p m g n -> n = n' -> count_lines p (stdout (m g)) = n'.
Proof. intros [_ H] <-. exact H. Qed.

Ltac tally_step :=
  lazymatch goal with
  | |- Tally _ (bind _ _) _ _ => eapply Tally_bind; [| intro]
  | |- Tally _ (print _) _ _ =>
      first [ eapply Tally_print_miss; reflexivity
            | eapply Tally_print_hit; reflexivity ]
  | |- Tally _ (print_sep _ _) _ _ =>
      first [ eapply Tally_print_sep_miss; reflexivity
            | eapply Tally_print_sep_hit; reflexivity ]
  | |- Tally _ (for_each _ _) _ _ => eapply Tally_for_each; intro
  | |- Tally _ (if _ then _ else _) _ _ => eapply Tally_if
  | |- Tally _ load_handle _ _ => eapply Tally_load_handle
  | |- Tally _ (let '(_, _) := ?p in _) _ _ => destruct p
  | |- Tally _ (let _ := _ in _) _ _ => cbv zeta
  | |- Tally _ (extension_flags_body _) _ _ => unfold extension_flags_body
  | |- Tally _ (extension_enum_fields_body _) _ _ =>
      unfold extension_enum_fields_body
  | |- Tally _ (extension_flag_bits_body _) _ _ =>
      unfold extension_flag_bits_body
  | |- Tally _ (feature_requirement_body _) _ _ =>
      unfold feature_requirement_body
  | |- Tally _ (command_param_body _) _ _ => unfold command_param_body
  | |- Tally _ (struct_member_body _) _ _ => unfold struct_member_body
  | |- Tally _ (enum_field_body _) _ _ => unfold enum_field_body
  | |- Tally _ (bitmask_flag_body _) _ _ => unfold bitmask_flag_body
  | |- Tally _ (spirv_enable_body _) _ _ => unfold spirv_enable_body
  | |- Tally _ (extension_to_toml _) _ _ => unfold extension_to_toml
  | |- Tally _ (version_to_toml _) _ _ => unfold version_to_toml
  | |- Tally _ (handle_to_toml _) _ _ => unfold handle_to_toml
  | |- Tally _ (command_to_toml _) _ _ => unfold command_to_toml
  | |- Tally _ (struct_to_toml _) _ _ => unfold struct_to_toml
  | |- Tally _ (enum_to_toml _) _ _ => unfold enum_to_toml
  | |- Tally _ (bitmask_to_toml _) _ _ => unfold bitmask_to_toml
  | |- Tally _ (flags_to_toml _) _ _ => unfold flags_to_toml
  | |- Tally _ (constant_to_toml _) _ _ => unfold constant_to_toml
  | |- Tally _ (spirv_to_toml _) _ _ => unfold spirv_to_toml
  | |- Tally _ (platform_body _) _ _ => unfold platform_body
  end.

(** Counts the lines of a record that satisfy a predicate. *)
Ltac count_tac :=
  unfold lines, command_record;
  eapply Tally_count;
    [repeat tally_step | unfold items; cbn [Nat.add Nat.mul]; try lia].

Lemma count_records {A : Type} p (f : A -> M unit) xs n :
  (forall x, count_lines p (lines (f x)) = n) ->
  count_lines p (records f xs) = n * List.length xs.
Proof.
  intro H. unfold records. induction xs as [|x xs IH]; cbn [flat_map].
  - now rewrite Nat.mul_0_r.
  - rewrite count_lines_app, H, IH. cbn [List.length]. lia.
Qed.

Lemma count_command_records p vk n :
  (forall h c, count_lines p (lines (command_record h c)) = n) ->
  completes vk = true ->
  count_lines p (command_records vk)
  = n * List.length (VulkanObject.commands vk).
Proof.
  intros H C. unfold completes in C.
  destruct (VulkanObject.handles vk) as [|[nm h] hs] eqn:Hh.
  - destruct (VulkanObject.commands vk) as [|c cs] eqn:Hc;
      [|discriminate].
    unfold command_records. rewrite Hh, Hc. cbn. lia.
  - rewrite (command_records_bound vk h (values hs))
      by (unfold values; now rewrite Hh).
    rewrite (count_records p _ _ n) by apply H.
    unfold values. now rewrite length_map.
Qed.

Lemma count_completed_run p vk nE nV nH nC nS nN nB nF nK nP nL :
  completes vk = true ->
  (forall x, count_lines p (lines (extension_to_toml x)) = nE) ->
  (forall x, count_lines p (lines (version_to_toml x)) = nV) ->
  (forall x, count_lines p (lines (handle_to_toml x)) = nH) ->
  (forall h x, count_lines p (lines (command_record h x)) = nC) ->
  (forall x, count_lines p (lines (struct_to_toml x)) = nS) ->
  (forall x, count_lines p (lines (enum_to_toml x)) = nN) ->
  (forall x, count_lines p (lines (bitmask_to_toml x)) = nB) ->
  (forall x, count_lines p (lines (flags_to_toml x)) = nF) ->
  (forall x, count_lines p (lines (constant_to_toml x)) = nK) ->
  (forall x, count_lines p (lines (spirv_to_toml x)) = nP) ->
  (forall x, count_lines p (lines (platform_body x)) = nL) ->
  count_lines p (stdout (run_script vk))
  = nE * List.length (VulkanObject.extensions vk)
    + nV * List.length (VulkanObject.versions vk)
    + nH * List.length (VulkanObject.handles vk)
    + nC * List.length (VulkanObject.commands vk)
    + nS * List.length (VulkanObject.structs vk)
    + nN * List.length (VulkanObject.enums vk)
    + nB * List.length (VulkanObject.bitmasks vk)
    + nF * List.length (VulkanObject.flags vk)
    + nK * List.length (VulkanObject.constants vk)
    + nP * List.length (VulkanObject.spirv vk)
    + nL * List.length (VulkanObject.platforms vk)
    + count_lines p (vendor_tags_record vk).
Proof.
  intros C HE HV HH HC HS HN HB HF HK HP HL.
  rewrite run_script_stdout, C. unfold before_commands, after_commands.
  rewrite !count_lines_app.
  rewrite (count_command_records p vk nC HC C).
  rewrite (count_records p _ _ nE HE), (count_records p _ _ nV HV),
    (count_records p _ _ nH HH), (count_records p _ _ nS HS),
    (count_records p _ _ nN HN), (count_records p _ _ nB HB),
    (count_records p _ _ nF HF), (count_records p _ _ nK HK),
    (count_records p _ _ nP HP), (count_records p _ _ nL HL).
  unfold values, items. rewrite !length_map. lia.
Qed.

(** ** One record for each entity *)

Lemma Closes_print l args g :
  l = join " " args -> Closes l (print args) g.
Proof. intros ->. now exists []. Qed.

Lemma Closes_bind {A B : Type} p l (m : M A) (k : A -> M B) g n :
  Tally p m g n -> (forall a, Closes l (k a) g) -> Closes l (bind m k) g.
Proof.
  intros [[a Ha] _] Hk. destruct (Hk a) as [body Hb].
  exists (stdout (m g) ++ body)%list. rewrite bind_run, Ha. cbn [stdout].
  now rewrite Hb, app_assoc.
Qed.

Lemma ends_with_blank_only_of {A : Type} (m : M A) g :
  Closes EmptyString m g ->
  count_lines is_blank (stdout (m g)) = 1 ->
  ends_with_blank_only (stdout (m g)).
Proof.
  intros [body Hb] Hc. exists body. split; [exact Hb|].
  rewrite Hb, count_lines_app in Hc. cbn in Hc. lia.
Qed.

Ltac closes_step :=
  lazymatch goal with
  | |- Closes _ (bind _ _) _ =>
      eapply (Closes_bind (fun _ => true));
      [solve [repeat tally_step] | intro]
  | |- Closes _ (print _) _ => apply Closes_print; reflexivity
  | |- Closes _ (let '(_, _) := ?p in _) _ => destruct p
  | |- Closes _ (?f _) _ => unfold f
  end.

(** The record ends with its blank line and holds no other. *)
Ltac record_end_tac :=
  unfold lines, command_record;
  apply ends_with_blank_only_of;
  [repeat closes_step | change stdout with (@stdout unit); count_tac].

(** X4: every record ends with the empty text of its last [print()] and
    no other [print] call of the record writes an empty text (a command
    record is taken with a handle bound); so a run that gets past the
    commands writes as many empty texts as the model has entities in the
    eleven printed categories, plus one for the vendor-tags record. *)
Theorem X4_one_blank_line_for_each_record :
  (forall item, ends_with_blank_only (lines (extension_to_toml item)))
  /\ (forall item, ends_with_blank_only (lines (version_to_toml item)))
  /\ (forall item, ends_with_blank_only (lines (handle_to_toml item)))
  /\ (forall h item,
        ends_with_blank_only (lines (command_record h item)))
  /\ (forall item, ends_with_blank_only (lines (struct_to_toml item)))
  /\ (forall item, ends_with_blank_only (lines (enum_to_toml item)))
  /\ (forall item, ends_with_blank_only (lines (bitmask_to_toml item)))
  /\ (forall item, ends_with_blank_only (lines (flags_to_toml item)))
  /\ (forall item, ends_with_blank_only (lines (constant_to_toml item)))
  /\ (forall item, ends_with_blank_only (lines (spirv_to_toml item)))
  /\ (forall ne, ends_with_blank_only (lines (platform_body ne)))
  /\ (forall vk, ends_with_blank_only (vendor_tags_record vk))
  /\ (forall vk : VulkanObject.t,
        completes vk = true ->
        count_lines is_blank (stdout (run_script vk))
        = entity_count vk + 1).
Proof.
  repeat match goal with |- _ /\ _ => split end;
    try (intros; record_end_tac; fail).
  - intro vk. unfold vendor_tags_record.
    exists [ "[vendor_tags]";
             "tags = [" ++ join "," (VulkanObject.vendorTags vk) ++ "]" ].
    split; reflexivity.
  - intros vk C.
    rewrite (count_completed_run is_blank vk 1 1 1 1 1 1 1 1 1 1 1 C)
      by (intros; count_tac).
    unfold entity_count. cbn. lia.
Qed.

Lemma X4_one_blank_line_for_each_record_witness :
  count_lines is_blank (stdout (run_script vk_small))
  = entity_count vk_small + 1.
Proof.
  destruct X4_one_blank_line_for_each_record
    as (_ & _ & _ & _ & _ & _ & _ & _ & _ & _ & _ & _ & H).
  apply (H vk_small). reflexivity.
Defined.

(** X5: in a run that gets past the commands, each entity gives one header
    of its category: the output holds as many [[[extension]]] lines as the
    model has extensions, and likewise for [[[enum]]], [[[bitmask]]],
    [[[constant]]] and [[[platform]]]; as many [[[item]]] lines as versions,
    handles, commands and structs together; as many SPIR-V headers as
    SPIR-V items. *)
Theorem X5_one_header_for_each_entity :
  forall vk : VulkanObject.t,
    completes vk = true ->
    count_lines (is_line "[[extension]]") (stdout (run_script vk))
    = List.length (VulkanObject.extensions vk)
    /\ count_lines (is_line "[[item]]") (stdout (run_script vk))
       = List.length (VulkanObject.versions vk)
         + List.length (VulkanObject.handles vk)
         + List.length (VulkanObject.commands vk)
         + List.length (VulkanObject.structs vk)
    /\ count_lines (is_line "[[enum]]") (stdout (run_script vk))
       = List.length (VulkanObject.enums vk)
    /\ count_lines (is_line "[[bitmask]]") (stdout (run_script vk))
       = List.length (VulkanObject.bitmasks vk)
    /\ count_lines (is_line "[[constant]]") (stdout (run_script vk))
       = List.length (VulkanObject.constants vk)
    /\ count_lines
         (fun l => (is_line "[[spirv_extension]]" l
                    || is_line "[[spirv_capability]]" l)%bool)
         (stdout (run_script vk))
       = List.length (VulkanObject.spirv vk)
    /\ count_lines (is_line "[[platform]]") (stdout (run_script vk))
       = List.length (VulkanObject.platforms vk).
Proof.
  intros vk C. repeat split.
  - rewrite (count_completed_run _ vk 1 0 0 0 0 0 0 0 0 0 0 C)
      by (intros; count_tac).
    cbn. lia.
  - rewrite (count_completed_run _ vk 0 1 1 1 1 0 0 0 0 0 0 C)
      by (intros; count_tac).
    cbn. lia.
  - rewrite (count_completed_run _ vk 0 0 0 0 0 1 0 0 0 0 0 C)
      by (intros; count_tac).
    cbn. lia.
  - rewrite (count_completed_run _ vk 0 0 0 0 0 0 1 0 0 0 0 C)
      by (intros; count_tac).
    cbn. lia.
  - rewrite (count_completed_run _ vk 0 0 0 0 0 0 0 0 1 0 0 C)
      by (intros; count_tac).
    cbn. lia.
  - rewrite (count_completed_run _ vk 0 0 0 0 0 0 0 0 0 1 0 C)
      by (intros; count_tac).
    cbn. lia.
  - rewrite (count_completed_run _ vk 0 0 0 0 0 0 0 0 0 0 1 C)
      by (intros; count_tac).
    cbn. lia.
Qed.

Lemma X5_one_header_for_each_entity_witness :
  count_lines (is_line "[[extension]]") (stdout (run_script vk_small)) = 1.
Proof.
  apply (X5_one_header_for_each_entity vk_small). reflexivity.
Defined.

Lemma record_print_counts :
  (forall item : Extension.t,
     List.length (lines (extension_to_toml item))
     = 21 + 3 * List.length (Extension.flags item)
       + 3 * List.length (Extension.enumFields item)
       + 3 * List.length (Extension.flagBits item)
       + 4 * List.length (Extension.featureRequirement item))
  /\ (forall item : Version.t,
        List.length (lines (version_to_toml item))
        = 5 + 4 * List.length (Version.featureRequirement item))
  /\ (forall item : Handle.t,
        List.length (lines (handle_to_toml item)) = 10)
  /\ (forall (h : Handle.t) (item : Command.t),
        List.length (lines (command_record h item))
        = 20 + 14 * List.length (Command.params item))
  /\ (forall item : Struct.t,
        List.length (lines (struct_to_toml item))
        = 12 + 14 * List.length (Struct.members item))
  /\ (forall item : Enum.t,
        List.length (lines (enum_to_toml item))
        = 9 + 6 * List.length (Enum.fields item))
  /\ (forall item : Bitmask.t,
        List.length (lines (bitmask_to_toml item))
        = 10 + 8 * List.length (Bitmask.flags item))
  /\ (forall item : Flags.t,
        List.length (lines (flags_to_toml item)) = 10)
  /\ (forall item : Constant.t,
        List.length (lines (constant_to_toml item)) = 5)
  /\ (forall item : Spirv.t,
        List.length (lines (spirv_to_toml item))
        = 3 + 9 * List.length (Spirv.enable item))
  /\ (forall ne : string * string,
        List.length (lines (platform_body ne)) = 4).
Proof.
  repeat match goal with |- _ /\ _ => split end;
    intros; rewrite <- count_lines_all; count_tac.
Qed.



(** X10: a record holds one sub-header for each nested record: as many
    [[[parameter]]] lines as the command has parameters, [[[member]]] lines
    as the struct has members, [[[field]]] lines as the enum has fields,
    [[[flag]]] lines as the bitmask has flags, [[[enable]]] lines as the
    SPIR-V item has conditions, and, for an extension, as many [[[flags]]],
    [[[enum_fields]]], [[[flag_bits]]] and [[[feature_requirement]]] lines
    as it has groups and requirements. *)
Theorem X10_one_sub_header_for_each_nested_record :
  (forall (h : Handle.t) (item : Command.t),
     count_lines (is_line "[[parameter]]") (lines (command_record h item))
     = List.length (Command.params item))
  /\ (forall item : Struct.t,
        count_lines (is_line "[[member]]") (lines (struct_to_toml item))
        = List.length (Struct.members item))
  /\ (forall item : Enum.t,
        count_lines (is_line "[[field]]") (lines (enum_to_toml item))
        = List.length (Enum.fields item))
  /\ (forall item : Bitmask.t,
        count_lines (is_line "[[flag]]") (lines (bitmask_to_toml item))
        = List.length (Bitmask.flags item))
  /\ (forall item : Spirv.t,
        count_lines (is_line "[[enable]]") (lines (spirv_to_toml item))
        = List.length (Spirv.enable item))
  /\ (forall item : Version.t,
        count_lines (is_line "[[feature_requirement]]")
          (lines (version_to_toml item))
        = List.length (Version.featureRequirement item))
  /\ (forall item : Extension.t,
        count_lines (is_line "[[feature_requirement]]")
          (lines (extension_to_toml item))
        = List.length (Extension.featureRequirement item)
        /\ count_lines (is_line "[[flags]]")
             (lines (extension_to_toml item))
           = List.length (Extension.flags item)
        /\ count_lines (is_line "[[enum_fields]]")
             (lines (extension_to_toml item))
           = List.length (Extension.enumFields item)
        /\ count_lines (is_line "[[flag_bits]]")
             (lines (extension_to_toml item))
           = List.length (Extension.flagBits item)).
Proof.
  repeat match goal with |- _ /\ _ => split end;
    intros; repeat split; count_tac.
Qed.
